(** * MunkiServerUploader: a shallow embedding of the AutoPkg processor

    The processor [MunkiServerUploader.py] is Python 2 glue code: it creates
    a pkginfo file with [makepkginfo], asks munkiserver whether the package
    version is already there, uploads it with [curl] when it is not, and
    posts a Slack message after a successful upload.

    The code is embedded as functions in a state-and-exception monad.  The
    state holds what the code mutates ([self.env] and the files it writes)
    and a log of what it does to the outside (output lines, subprocesses,
    Slack calls).  What the outside answers (the tools, [plistlib], [json],
    the Slack client) is a [World] record the functions are parameterised
    by.

    Conventions of the embedding:
    - Python [str] and [unicode] are one type, [string];
    - a dict is a finite map with string keys (Python 2 dicts carry no
      order);
    - a bare [return] is the outcome [Return], turned into a normal result
      at the function boundary ([fn_body]);
    - an exception nobody catches is the outcome [Raise]. *)

From Stdlib Require Import Floats.SpecFloat Ascii String.
From stdpp Require Import gmap strings list fin_maps.

Local Open Scope string_scope.
Local Open Scope list_scope.
Local Set Warnings "-register-all".

(** ** Python values *)

(** The values [self.env], [plistlib.readPlist] and [json.loads] hand to the
    code. *)
Inductive value : Type :=
  | VNone
  | VBool (b : bool)
  | VInt (z : Z)
  | VFloat (f : spec_float)
  | VStr (s : string)
  | VList (l : list value)
  | VDict (d : gmap string value).

Inductive exn : Type :=
  | KeyError
  | TypeError
  | ValueError
  | IOError
  | OSError
  | OtherError (name : string).

(** The result of an expression that may raise. *)
Inductive exc (A : Type) : Type :=
  | Ok (a : A)
  | Err (e : exn).
Arguments Ok {A} a.
Arguments Err {A} e.

(** Truth value of an object, as [if x:] and [not x] compute it. *)
Definition truthy (v : value) : bool :=
  match v with
  | VNone => false
  | VBool b => b
  | VInt z => negb (z =? 0)%Z
  | VFloat f => match f with S754_zero _ => false | _ => true end
  | VStr s => match s with EmptyString => false | String _ _ => true end
  | VList l => match l with [] => false | _ :: _ => true end
  | VDict d => match map_to_list d with [] => false | _ :: _ => true end
  end.

(** [c[k]] for a string key [k]: only a dict can be indexed by a string. *)
Definition getitem (c : value) (k : string) : exc value :=
  match c with
  | VDict d => match d !! k with Some v => Ok v | None => Err KeyError end
  | _ => Err TypeError
  end.

(** [c[k] = v] for a string key [k]. *)
Definition setitem (c : value) (k : string) (v : value) : exc value :=
  match c with
  | VDict d => Ok (VDict (<[k := v]> d))
  | _ => Err TypeError
  end.

(** [a + b] at a place where one operand is a string: the sum is the
    concatenation when the other operand is a string too, and a [TypeError]
    otherwise. *)
Definition str_add (a b : value) : exc value :=
  match a, b with
  | VStr x, VStr y => Ok (VStr (x +:+ y))
  | _, _ => Err TypeError
  end.

(** [v == "lit"] for a string literal. *)
Definition eq_str (v : value) (lit : string) : bool :=
  match v with
  | VStr s => String.eqb s lit
  | _ => false
  end.

(** ** The substitution [re.sub('[^a-zA-Z0-9.-]+', '_', s)] *)

Definition in_range (lo hi c : ascii) : bool :=
  ((Ascii.N_of_ascii lo <=? Ascii.N_of_ascii c)%N
   && (Ascii.N_of_ascii c <=? Ascii.N_of_ascii hi)%N)%bool.

(** The characters of the class [a-zA-Z0-9.-]. *)
Definition allowed (c : ascii) : bool :=
  (in_range "a" "z" c || in_range "A" "Z" c || in_range "0" "9" c
   || Ascii.eqb c "." || Ascii.eqb c "-")%bool%char.

(** The scan of [re.sub]: a character of the class is copied; the first
    character of a run outside the class writes one ["_"] and the rest of
    the run ([in_run]) writes nothing, since [+] makes the whole run one
    match. *)
Fixpoint sub_scan (in_run : bool) (s : string) : string :=
  match s with
  | EmptyString => EmptyString
  | String c r =>
      if allowed c then String c (sub_scan false r)
      else if in_run then sub_scan true r
      else String "_"%char (sub_scan true r)
  end.

Definition sanitize (s : string) : string := sub_scan false s.

(** [re.sub(pattern, '_', v)]: a [TypeError] when [v] is not a string. *)
Definition re_sub (v : value) : exc value :=
  match v with
  | VStr s => Ok (VStr (sanitize s))
  | _ => Err TypeError
  end.

(** The characters of a string. *)
Fixpoint chars (s : string) : list ascii :=
  match s with
  | EmptyString => []
  | String c r => c :: chars r
  end.

(** ** State, log and the outside world *)

(** What the processor does to the outside, in order. *)
Inductive event : Type :=
  | EvOutput (msg : value)
  | EvCall (args : list value)
  | EvPopen (cmd : list value)
  | EvSlack (token : value) (channel : string) (text : value).

Record state : Type := mkState {
  env : gmap string value;
  fs : gmap string string;
  log : list event
}.

(** What the outside answers.
    - [can_write p]: [open(p, "wb")] succeeds;
    - [subprocess_call args]: the standard output of the child process of
      [subprocess.call(args, stdout=...)], or the exception it raises;
    - [readPlist raw]: what [plistlib] parses the bytes of a file to;
    - [writePlist v]: the bytes [plistlib] writes for [v], and the
      exception it stops with when [v] holds something a plist cannot;
    - [popen cmd]: what [p.stdout.read()] gives for
      [p = subprocess.Popen(cmd, ...)], or the exception [Popen] raises;
    - [json_loads body]: [None] when [json.loads] raises [ValueError];
    - [api_call token channel text]: the result of the Slack client's
      [api_call("chat.postMessage", ...)]. *)
Record World : Type := mkWorld {
  can_write : string -> bool;
  subprocess_call : list value -> exc string;
  readPlist : string -> exc value;
  writePlist : value -> string * option exn;
  popen : list value -> exc string;
  json_loads : string -> option value;
  api_call : value -> string -> value -> exc value
}.

Inductive outcome (A : Type) : Type :=
  | Val (a : A)
  | Return
  | Raise (e : exn).
Arguments Val {A} a.
Arguments Return {A}.
Arguments Raise {A} e.

Definition M (A : Type) : Type := state -> outcome A * state.

Definition ret {A} (a : A) : M A := fun s => (Val a, s).

Definition bind {A B} (m : M A) (k : A -> M B) : M B :=
  fun s =>
    match m s with
    | (Val a, s') => k a s'
    | (Return, s') => (Return, s')
    | (Raise e, s') => (Raise e, s')
    end.

#[global] Instance M_ret : MRet M := @ret.
#[global] Instance M_bind : MBind M := fun A B k m => bind m k.

(** A bare [return]. *)
Definition return_ {A} : M A := fun s => (Return, s).

Definition raise {A} (e : exn) : M A := fun s => (Raise e, s).

Definition lift {A} (r : exc A) : M A :=
  match r with
  | Ok a => ret a
  | Err e => raise e
  end.

(** [try: body except: handler]. The bare [except] catches everything. *)
Definition try_except {A} (body handler : M A) : M A :=
  fun s =>
    match body s with
    | (Raise _, s') => handler s'
    | r => r
    end.

(** The body of a function: a [return] inside ends the function. *)
Definition fn_body (m : M unit) : M unit :=
  fun s =>
    match m s with
    | (Return, s') => (Val tt, s')
    | r => r
    end.

Definition when_ (b : bool) (m : M unit) : M unit :=
  if b then m else ret tt.

(** [self.env[k]]. *)
Definition env_getitem (k : string) : M value :=
  fun s =>
    match env s !! k with
    | Some v => (Val v, s)
    | None => (Raise KeyError, s)
    end.

(** [self.env.get(k)]. *)
Definition env_get (k : string) : M value :=
  fun s => (Val (default VNone (env s !! k)), s).

(** [k in self.env]. *)
Definition env_contains (k : string) : M bool :=
  fun s => (Val (bool_decide (is_Some (env s !! k))), s).

(** [self.env[k] = v]. *)
Definition env_setitem (k : string) (v : value) : M unit :=
  fun s => (Val tt, mkState (<[k := v]> (env s)) (fs s) (log s)).

Definition emit (e : event) : M unit :=
  fun s => (Val tt, mkState (env s) (fs s) (log s ++ [e])).

(** [self.output(msg)]. *)
Definition output (msg : value) : M unit := emit (EvOutput msg).

(** [os.path.exists(p)]; Python 2 raises [TypeError] when [p] is not a
    string. *)
Definition os_path_exists (p : value) : M bool :=
  fun s =>
    match p with
    | VStr path => (Val (bool_decide (is_Some (fs s !! path))), s)
    | _ => (Raise TypeError, s)
    end.

(** Writing [data] to the file [p], creating or truncating it. *)
Definition write_file (w : World) (p : value) (data : string) : M unit :=
  fun s =>
    match p with
    | VStr path =>
        if can_write w path
        then (Val tt, mkState (env s) (<[path := data]> (fs s)) (log s))
        else (Raise IOError, s)
    | _ => (Raise TypeError, s)
    end.

(** [plistlib.readPlist(p)]. *)
Definition read_plist (w : World) (p : value) : M value :=
  fun s =>
    match p with
    | VStr path =>
        match fs s !! path with
        | Some raw => lift (readPlist w raw) s
        | None => (Raise IOError, s)
        end
    | _ => (Raise TypeError, s)
    end.

(** [plistlib.writePlist(v, p)]: the file is opened, then [v] is written
    to it. *)
Definition write_plist (w : World) (v p : value) : M unit :=
  write_file w p (writePlist w v).1 ;;
  match (writePlist w v).2 with
  | None => ret tt
  | Some e => raise e
  end.

(** ** The processor *)

(** [args.extend([flag, self.env[k]])] when [self.env.get(k)] is true. *)
Definition extend_if_set (k flag : string) (args : list value)
  : M (list value) :=
  g ← env_get k;
  if truthy g then
    v ← env_getitem k;
    mret (args ++ [VStr flag; v])
  else mret args.

(** [make_pkg_info], lines 79 to 99. *)
Definition make_pkg_info (w : World) (package_file : value) : M unit :=
  pf ← env_getitem "package_file";
  args ← mret [VStr "/usr/local/munki/makepkginfo"; pf];
  args ← extend_if_set "pkginfo_name" "--name" args;
  args ← extend_if_set "pkginfo_displayname" "--displayname" args;
  args ← extend_if_set "pkginfo_destinationpath" "--destinationpath" args;
  pf ← env_getitem "package_file";
  path ← lift (str_add pf (VStr ".plist"));
  env_setitem "pkginfo_file" path;;
  (* with open(self.env["pkginfo_file"], "wb") as pkginfo_file_handle: *)
  path ← env_getitem "pkginfo_file";
  write_file w path "";;
  path ← env_getitem "pkginfo_file";
  msg ← lift (str_add (VStr "No pkginfo file specified.  Creating ") path);
  output msg;;
  emit (EvCall args);;
  out ← lift (subprocess_call w args);
  write_file w path out;;
  (* the block after the with statement *)
  path ← env_getitem "pkginfo_file";
  plist ← read_plist w path;
  name ← lift (getitem plist "name");
  name ← lift (re_sub name);
  plist ← lift (setitem plist "name" name);
  version ← lift (getitem plist "version");
  version ← lift (re_sub version);
  plist ← lift (setitem plist "version" version);
  path ← env_getitem "pkginfo_file";
  write_plist w plist path.

(** [send_slack_notification], lines 101 to 107. *)
Definition send_slack_notification (w : World) (message : value) : M unit :=
  token ← env_getitem "slack_api_token";
  chan ← mret "munkiserver-packages";
  emit (EvSlack token chan message);;
  result ← lift (api_call w token chan message);
  ok ← lift (getitem result "ok");
  if negb (truthy ok) then
    msg ← lift (str_add (VStr "Failed to send Slack notification: ") result);
    output msg
  else mret tt.

Definition config_hint : string :=
  "Unable to construct curl command.  Have you set the MUNKISERVER_API_URL, MUNKISERVER_API_KEY, and MUNKISERVER_UNIT environment variables?".

Definition slack_text : string :=
  "A new package has been uploaded to Staging.  Please check the settings, test it, and put it into production:  ".

(** Lines 111 to 121 of [main]: the package file. *)
Definition locate_package : M unit :=
  pf ← env_getitem "package_file";
  when_ (negb (truthy pf))
    (pn ← env_getitem "pathname";
     if truthy pn then
       pn ← env_getitem "pathname";
       env_setitem "package_file" pn
     else
       output (VStr "No package file pathname provided");;
       return_);;
  pf ← env_getitem "package_file";
  found ← os_path_exists pf;
  when_ (negb found)
    (pf ← env_getitem "package_file";
     msg ← lift (str_add (VStr "package_file path:  ") pf);
     output msg;;
     output (VStr "Package file not found");;
     return_).

(** Lines 123 to 132 of [main]: the pkginfo file, and the name and version
    read from it. *)
Definition load_pkginfo (w : World) : M (value * value) :=
  given ← env_contains "pkginfo_file";
  (if negb given then
     pf ← env_getitem "package_file";
     make_pkg_info w pf
   else
     pi ← env_getitem "pkginfo_file";
     found ← os_path_exists pi;
     when_ (negb found)
       (output (VStr "pkginfo file specified but not found");;
        return_));;
  pi ← env_getitem "pkginfo_file";
  pkginfo ← read_plist w pi;
  app_name ← lift (getitem pkginfo "name");
  app_version ← lift (getitem pkginfo "version");
  mret (app_name, app_version).

(** The [try] block of lines 136 to 142: the command of the query. *)
Definition query_cmd (app_name app_version : value) : M (list value) :=
  a ← env_getitem "api_url";
  u ← lift (str_add a (VStr "/"));
  unit_ ← env_getitem "unit";
  u ← lift (str_add u unit_);
  u ← lift (str_add u (VStr "/packages/"));
  u ← lift (str_add u app_name);
  u ← lift (str_add u (VStr "/"));
  api_url ← lift (str_add u app_version);
  curl ← env_getitem "CURL_PATH";
  key ← env_getitem "api_key";
  header ← lift (str_add (VStr "X-Api-Key: ") key);
  mret [curl; VStr "--header"; header; VStr "--url"; api_url].

(** The [try] block of lines 159 to 165: the command of the upload. *)
Definition upload_cmd : M (list value) :=
  a ← env_getitem "api_url";
  u ← lift (str_add a (VStr "/"));
  unit_ ← env_getitem "unit";
  u ← lift (str_add u unit_);
  api_url ← lift (str_add u (VStr "/packages"));
  curl ← env_getitem "CURL_PATH";
  key ← env_getitem "api_key";
  header ← lift (str_add (VStr "X-Api-Key: ") key);
  pi ← env_getitem "pkginfo_file";
  f1 ← lift (str_add (VStr "pkginfo_file=@") pi);
  pf ← env_getitem "package_file";
  f2 ← lift (str_add (VStr "package_file=@") pf);
  mret [curl; VStr "--header"; header; VStr "-F"; f1; VStr "-F"; f2;
        VStr "--url"; api_url].

(** [subprocess.Popen(cmd, ...)] followed by
    [json.loads(p.stdout.read())]. *)
Definition curl_json (w : World) (cmd : list value) : M value :=
  emit (EvPopen cmd);;
  body ← lift (popen w cmd);
  match json_loads w body with
  | Some response => mret response
  | None => raise ValueError
  end.

(** Lines 152 to 155 of [main]: what is done with the answer to the
    query. *)
Definition quit_if_exists (app_name app_version response : value)
  : M unit :=
  there ← lift (getitem response "exists");
  when_ (truthy there)
    (m ← lift (str_add app_name (VStr " version "));
     m ← lift (str_add m app_version);
     m ← lift (str_add m (VStr " is already in munkiserver.  Quitting."));
     output m;;
     return_).

(** Lines 134 to 155 of [main]: is the version in munkiserver already? *)
Definition check_exists (w : World) (app_name app_version : value)
  : M unit :=
  curl_cmd ← try_except (query_cmd app_name app_version)
                (output (VStr config_hint);; return_);
  response ← curl_json w curl_cmd;
  quit_if_exists app_name app_version response.

(** Lines 174 to 181 of [main]: what is done with the answer to the
    upload. *)
Definition report_upload (w : World) (response : value) : M unit :=
  ty ← lift (getitem response "type");
  if eq_str ty "success" then
    m ← lift (getitem response "message");
    msg ← lift (str_add (VStr "Upload succeeded: ") m);
    output msg;;
    u ← lift (getitem response "edit_url");
    msg ← lift (str_add (VStr "URL: ") u);
    output msg;;
    u ← lift (getitem response "edit_url");
    text ← lift (str_add (VStr slack_text) u);
    send_slack_notification w text
  else
    m ← lift (getitem response "message");
    msg ← lift (str_add (VStr "Upload failed: ") m);
    output msg.

(** Lines 157 to 183 of [main]: the upload and what follows it. *)
Definition upload_package (w : World) : M unit :=
  curl_cmd ← try_except upload_cmd
                (output (VStr config_hint);; return_);
  response ← curl_json w curl_cmd;
  report_upload w response.

(** Lines 111 to 132 of [main]: everything before the first [try]. *)
Definition prepare (w : World) : M (value * value) :=
  locate_package;;
  load_pkginfo w.

(** [main], lines 109 to 183. *)
Definition main (w : World) : M unit :=
  fn_body
    ('(app_name, app_version) ← prepare w;
     check_exists w app_name app_version;;
     upload_package w;;
     return_).

(** A run of the processor from the environment [e] and the files [f]. *)
Definition run_main (w : World) (e : gmap string value)
    (f : gmap string string) : outcome unit * state :=
  main w (mkState e f []).

(** ** Reading the log *)

(** The commands handed to [subprocess.Popen], in order: the network
    calls to munkiserver. *)
Definition popen_calls (l : list event) : list (list value) :=
  omap (fun e => match e with EvPopen cmd => Some cmd | _ => None end) l.

(** The texts posted to Slack, in order. *)
Definition slack_calls (l : list event) : list value :=
  omap (fun e => match e with EvSlack _ _ t => Some t | _ => None end) l.

(** The lines given to [self.output], in order. *)
Definition outputs (l : list event) : list value :=
  omap (fun e => match e with EvOutput m => Some m | _ => None end) l.

(** The argument lists given to [subprocess.call], in order. *)
Definition tool_calls (l : list event) : list (list value) :=
  omap (fun e => match e with EvCall a => Some a | _ => None end) l.

(** A curl command is the multipart POST when it carries a [-F] form
    argument. *)
Definition is_upload_cmd (cmd : list value) : bool :=
  existsb (fun v => eq_str v "-F") (tail cmd).

Definition upload_calls (l : list event) : list (list value) :=
  List.filter is_upload_cmd (popen_calls l).

(** A character the substitution may leave in its result. *)
Definition clean_char (c : ascii) : bool :=
  (allowed c || Ascii.eqb c "_")%bool%char.

(** The replacement as the claim words it: every character outside the
    class becomes a [_], one for one. *)
Fixpoint replace_each (s : string) : string :=
  match s with
  | EmptyString => EmptyString
  | String c r =>
      String (if allowed c then c else "_"%char) (replace_each r)
  end.

(** Every character of [run] is outside the class. *)
Definition all_outside (run : string) : bool :=
  forallb (fun c => negb (allowed c)) (chars run).

(** [s] is empty or starts with a character of the class: a run of
    characters outside the class that stands before [s] ends there. *)
Definition starts_in_class (s : string) : bool :=
  match s with
  | EmptyString => true
  | String c _ => allowed c
  end.

(** [replaced_runs s t]: [t] is [s] with every character of the class kept
    and every maximal run of characters outside the class replaced by one
    [_]. *)
Inductive replaced_runs : string -> string -> Prop :=
  | runs_done : replaced_runs "" ""
  | runs_keep c s t :
      allowed c = true ->
      replaced_runs s t ->
      replaced_runs (String c s) (String c t)
  | runs_replace run s t :
      run <> "" ->
      all_outside run = true ->
      starts_in_class s = true ->
      replaced_runs s t ->
      replaced_runs (run +:+ s) (String "_"%char t).

(** [self.env[k]] is missing or [None], as after
    [os.environ.get] of a variable that is not set. *)
Definition absent (e : gmap string value) (k : string) : Prop :=
  e !! k = None \/ e !! k = Some VNone.

(** ** A munkiserver, a Slack and a disk to run the processor against *)

Definition dq : string := String "034"%char "".

(** The JSON text of an object with the given members. *)
Definition member (k v : string) : string := dq +:+ k +:+ dq +:+ ": " +:+ v.
Definition quoted (s : string) : string := dq +:+ s +:+ dq.

Definition body_exists_true : string := "{" +:+ member "exists" "true" +:+ "}".
Definition body_exists_false : string :=
  "{" +:+ member "exists" "false" +:+ "}".
Definition body_upload_ok : string :=
  "{" +:+ member "type" (quoted "success") +:+ ", "
      +:+ member "message" (quoted "ok") +:+ ", "
      +:+ member "edit_url" (quoted "http://x") +:+ "}".
Definition body_upload_bad : string :=
  "{" +:+ member "type" (quoted "error") +:+ ", "
      +:+ member "message" (quoted "bad") +:+ "}".
Definition body_not_json : string := "<html>502 Bad Gateway</html>".

(** [json.loads] on the bodies above; anything else is taken as not
    JSON. *)
Definition stub_json_loads (body : string) : option value :=
  if String.eqb body body_exists_true then
    Some (VDict {[ "exists" := VBool true ]})
  else if String.eqb body body_exists_false then
    Some (VDict {[ "exists" := VBool false ]})
  else if String.eqb body body_upload_ok then
    Some (VDict (<["type" := VStr "success"]>
                 (<["message" := VStr "ok"]>
                  {[ "edit_url" := VStr "http://x" ]})))
  else if String.eqb body body_upload_bad then
    Some (VDict (<["type" := VStr "error"]> {[ "message" := VStr "bad" ]}))
  else None.

(** A pkginfo file is written here as one line of text. *)
Definition pkginfo_text (name version : string) : string :=
  "name=" +:+ name +:+ ";version=" +:+ version +:+ ";catalogs=testing".

Definition pkginfo_record (name version : string) : value :=
  VDict (<["name" := VStr name]>
         (<["version" := VStr version]>
          {[ "catalogs" := VList [VStr "testing"] ]})).

Definition raw_name : string := "Fire fox".
Definition raw_version : string := "115.0 (beta)".

Definition stub_readPlist (raw : string) : exc value :=
  if String.eqb raw (pkginfo_text raw_name raw_version) then
    Ok (pkginfo_record raw_name raw_version)
  else if String.eqb raw
            (pkginfo_text (sanitize raw_name) (sanitize raw_version)) then
    Ok (pkginfo_record (sanitize raw_name) (sanitize raw_version))
  else Err (OtherError "ExpatError").

Definition stub_writePlist (v : value) : string * option exn :=
  match getitem v "name", getitem v "version" with
  | Ok (VStr n), Ok (VStr ver) => (pkginfo_text n ver, None)
  | _, _ => ("", Some TypeError)
  end.

(** A world whose registry answers every query with [query_body], every
    upload with [upload_body], and whose Slack answers [slack_result]. *)
Definition stub_world (query_body upload_body : string)
    (slack_result : value) : World :=
  {| can_write := fun _ => true;
     subprocess_call := fun _ => Ok (pkginfo_text raw_name raw_version);
     readPlist := stub_readPlist;
     writePlist := stub_writePlist;
     popen := fun cmd =>
       Ok (if is_upload_cmd cmd then upload_body else query_body);
     json_loads := stub_json_loads;
     api_call := fun _ _ _ => Ok slack_result |}.

Definition slack_ok : value := VDict {[ "ok" := VBool true ]}.
Definition slack_failed : value :=
  VDict (<["ok" := VBool false]> {[ "error" := VStr "invalid_auth" ]}).

Definition pkg_path : string := "/pkgs/Firefox.dmg".
Definition given_pkginfo_path : string := "/pkgs/Firefox.pkginfo".

(** The environment of a recipe that names no pkginfo file. *)
Definition stub_env : gmap string value :=
  <["package_file" := VStr pkg_path]>
  (<["api_url" := VStr "https://munki.example.edu/api"]>
   (<["api_key" := VStr "s3cret"]>
    (<["unit" := VStr "communication"]>
     (<["CURL_PATH" := VStr "/usr/bin/curl"]>
      (<["pkginfo_name" := VNone]>
       (<["pkginfo_displayname" := VNone]>
        {[ "slack_api_token" := VStr "xoxb-1" ]})))))).

(** The environment of a recipe that brings its own pkginfo file. *)
Definition stub_env_given : gmap string value :=
  <["pkginfo_file" := VStr given_pkginfo_path]> stub_env.

Definition stub_fs : gmap string string :=
  <[pkg_path := "dmg"]>
  {[ given_pkginfo_path := pkginfo_text raw_name raw_version ]}.

(** The command of the query in the runs below. *)
Definition stub_query (name version : string) : list value :=
  [VStr "/usr/bin/curl"; VStr "--header"; VStr "X-Api-Key: s3cret";
   VStr "--url";
   VStr ("https://munki.example.edu/api/communication/packages/"
         +:+ name +:+ "/" +:+ version)].

Definition stub_upload (pkginfo : string) : list value :=
  [VStr "/usr/bin/curl"; VStr "--header"; VStr "X-Api-Key: s3cret";
   VStr "-F"; VStr ("pkginfo_file=@" +:+ pkginfo);
   VStr "-F"; VStr ("package_file=@" +:+ pkg_path);
   VStr "--url";
   VStr "https://munki.example.edu/api/communication/packages"].

(** The run reports the configuration error. *)
Definition reports_config_error (l : list event) : Prop :=
  VStr config_hint ∈ outputs l.

(** The environments and worlds of the runs shown below. *)
Definition env_no_api_url : gmap string value := delete "api_url" stub_env.
Definition env_given_no_api_key : gmap string value :=
  <["api_key" := VNone]> stub_env_given.
Definition world_exists : World :=
  stub_world body_exists_true body_upload_ok slack_ok.
Definition world_upload_ok : World :=
  stub_world body_exists_false body_upload_ok slack_ok.
Definition world_upload_bad : World :=
  stub_world body_exists_false body_upload_bad slack_ok.
Definition world_slack_down : World :=
  stub_world body_exists_false body_upload_ok slack_failed.
Definition world_bad_gateway : World :=
  stub_world body_not_json body_upload_ok slack_ok.

(** ** Notions used in the proofs *)

(** A computation that makes no call to munkiserver or Slack and leaves
    [self.env] alone, but for the two keys [main] assigns. *)
Definition quiet {A} (m : M A) : Prop :=
  forall s,
    popen_calls (log (m s).2) = popen_calls (log s)
    /\ slack_calls (log (m s).2) = slack_calls (log s)
    /\ forall k, k <> "package_file" -> k <> "pkginfo_file" ->
         env (m s).2 !! k = env s !! k.

(** A computation that starts no tool and leaves [self.env] and the
    files alone. *)
Definition calm {A} (m : M A) : Prop :=
  forall s,
    env (m s).2 = env s /\ fs (m s).2 = fs s
    /\ tool_calls (log (m s).2) = tool_calls (log s).

(** ** More ways to read a string, an environment and a world *)

(** No two characters outside the class stand side by side in [s];
    [after_outside] says that the character before [s] is outside the
    class. *)
Fixpoint runs_collapsed (after_outside : bool) (s : string) : bool :=
  match s with
  | EmptyString => true
  | String c r =>
      if allowed c then runs_collapsed false r
      else (negb after_outside && runs_collapsed true r)%bool
  end.

(** Every character of [s] is in the class or is a [_] that stands
    alone. *)
Definition stable (s : string) : bool :=
  (runs_collapsed false s && forallb clean_char (chars s))%bool.

(** What lines 81 to 87 add to the arguments of [makepkginfo] for the key
    [k]: the flag and the value, when the value is there and true. *)
Definition optional_arg (e : gmap string value) (k flag : string)
  : list value :=
  match e !! k with
  | Some v => if truthy v then [VStr flag; v] else []
  | None => []
  end.

(** The argument list of lines 80 to 87 for the package [pkg]. *)
Definition makepkginfo_args (e : gmap string value) (pkg : string)
  : list value :=
  [VStr "/usr/local/munki/makepkginfo"; VStr pkg]
  ++ optional_arg e "pkginfo_name" "--name"
  ++ optional_arg e "pkginfo_displayname" "--displayname"
  ++ optional_arg e "pkginfo_destinationpath" "--destinationpath".

(** The four lines [main] gives to [self.output] before it returns
    without having called munkiserver. *)
Definition diagnostics : list string :=
  ["No package file pathname provided"; "Package file not found";
   "pkginfo file specified but not found"; config_hint].

(** The three of them that [main] gives before it looks at the
    configuration of munkiserver. *)
Definition early_diagnostics : list string :=
  ["No package file pathname provided"; "Package file not found";
   "pkginfo file specified but not found"].

(** More answers of munkiserver: an [exists] that is a string, one that
    is [null], an object with no members, an upload answer with no
    [type]. *)
Definition body_exists_no : string :=
  "{" +:+ member "exists" (quoted "no") +:+ "}".
Definition body_exists_null : string :=
  "{" +:+ member "exists" "null" +:+ "}".
Definition body_empty_object : string := "{}".
Definition body_upload_untyped : string :=
  "{" +:+ member "message" (quoted "stored") +:+ "}".

Definition edge_json_loads (body : string) : option value :=
  if String.eqb body body_exists_no then
    Some (VDict {[ "exists" := VStr "no" ]})
  else if String.eqb body body_exists_null then
    Some (VDict {[ "exists" := VNone ]})
  else if String.eqb body body_empty_object then
    Some (VDict ∅)
  else if String.eqb body body_upload_untyped then
    Some (VDict {[ "message" := VStr "stored" ]})
  else stub_json_loads body.

(** A world in which [makepkginfo], the two calls to munkiserver and
    Slack answer as given, or fail. *)
Definition edge_world (tool query upload : exc string)
    (slack : exc value) : World :=
  {| can_write := fun _ => true;
     subprocess_call := fun _ => tool;
     readPlist := stub_readPlist;
     writePlist := stub_writePlist;
     popen := fun cmd => if is_upload_cmd cmd then upload else query;
     json_loads := edge_json_loads;
     api_call := fun _ _ _ => slack |}.

Definition tool_ok : exc string := Ok (pkginfo_text raw_name raw_version).

(** Worlds for the edges of the run. *)
Definition world_exists_no : World :=
  edge_world tool_ok (Ok body_exists_no) (Ok body_upload_ok) (Ok slack_ok).
Definition world_exists_null : World :=
  edge_world tool_ok (Ok body_exists_null) (Ok body_upload_bad)
    (Ok slack_ok).
Definition world_empty_answer : World :=
  edge_world tool_ok (Ok body_empty_object) (Ok body_upload_ok)
    (Ok slack_ok).
Definition world_untyped_upload : World :=
  edge_world tool_ok (Ok body_exists_false) (Ok body_upload_untyped)
    (Ok slack_ok).
Definition world_no_curl : World :=
  edge_world tool_ok (Err OSError) (Err OSError) (Ok slack_ok).
Definition world_upload_not_json : World :=
  edge_world tool_ok (Ok body_exists_false) (Ok body_not_json)
    (Ok slack_ok).
Definition world_no_makepkginfo : World :=
  edge_world (Err OSError) (Ok body_exists_false) (Ok body_upload_ok)
    (Ok slack_ok).

(** An environment whose [package_file] is [None] and whose [pathname]
    names the package, and one that sets a name for [makepkginfo] and an
    empty display name. *)
Definition env_pathname : gmap string value :=
  <["pathname" := VStr pkg_path]> (<["package_file" := VNone]> stub_env).
Definition env_named : gmap string value :=
  <["pkginfo_name" := VStr "Firefox"]>
    (<["pkginfo_displayname" := VStr ""]> stub_env).

(** The runs shown below. *)
Definition run_exists_no := run_main world_exists_no stub_env_given stub_fs.
Definition run_exists_null :=
  run_main world_exists_null stub_env_given stub_fs.
Definition run_empty_answer :=
  run_main world_empty_answer stub_env_given stub_fs.
Definition run_untyped_upload :=
  run_main world_untyped_upload stub_env_given stub_fs.
Definition run_no_curl := run_main world_no_curl stub_env_given stub_fs.
Definition run_upload_not_json :=
  run_main world_upload_not_json stub_env_given stub_fs.
Definition run_no_makepkginfo :=
  run_main world_no_makepkginfo stub_env stub_fs.
Definition run_generated := run_main world_upload_ok stub_env stub_fs.
Definition run_given := run_main world_upload_ok stub_env_given stub_fs.
Definition run_pathname := run_main world_upload_ok env_pathname stub_fs.
Definition run_named := run_main world_upload_ok env_named stub_fs.
Definition run_no_package := run_main world_upload_ok stub_env ∅.


(** ** The substitution *)

Lemma sub_scan_clean b s :
  Forall (fun c => clean_char c = true) (chars (sub_scan b s)).
Proof.
  revert b. induction s as [|c r IH]; intros b; simpl; [constructor|].
  destruct (allowed c) eqn:Hc; simpl.
  - constructor; [unfold clean_char; rewrite Hc; reflexivity | apply IH].
  - destruct b; [apply IH|]. simpl. constructor; [reflexivity | apply IH].
Qed.

(** A result of the scan that began inside a run starts with a character
    of the class, so scanning it again inside a run changes nothing; and
    scanning any result again from outside a run gives it back. *)
Lemma sub_scan_fixed s :
  (forall b, sub_scan false (sub_scan b s) = sub_scan b s)
  /\ sub_scan true (sub_scan true s) = sub_scan true s.
Proof.
  induction s as [|c r [IH1 IH2]]; [split; [intros b|]; reflexivity|].
  split.
  - intros b. simpl. destruct (allowed c) eqn:Hc.
    + simpl. rewrite Hc, IH1. reflexivity.
    + destruct b; [apply IH1|]. simpl. rewrite IH2. reflexivity.
  - simpl. destruct (allowed c) eqn:Hc; [|apply IH2].
    simpl. rewrite Hc, IH1. reflexivity.
Qed.

(** The scan drops no character of the class and adds none: the
    characters of the class in the result are those of the input, in
    order. *)
Lemma sub_scan_keeps_class b s :
  List.filter allowed (chars (sub_scan b s)) = List.filter allowed (chars s).
Proof.
  revert b. induction s as [|c r IH]; intros b; [reflexivity|].
  simpl. destruct (allowed c) eqn:Hc.
  - simpl. rewrite Hc, IH. reflexivity.
  - destruct b; [apply IH|]. simpl. apply IH.
Qed.

(** A string of characters of the class is left as it is. *)
Lemma sanitize_clean_string s :
  Forall (fun c => allowed c = true) (chars s) -> sanitize s = s.
Proof.
  unfold sanitize. induction s as [|c r IH]; [reflexivity|].
  simpl. intros H. inversion H as [|? ? Hc Hr]; subst.
  rewrite Hc, IH by exact Hr. reflexivity.
Qed.

Lemma append_snoc run c r :
  (run +:+ String c "") +:+ r = run +:+ String c r.
Proof.
  induction run as [|x run IH]; [reflexivity|].
  change ((String x run +:+ String c "") +:+ r)
    with (String x ((run +:+ String c "") +:+ r)).
  change (String x run +:+ String c r) with (String x (run +:+ String c r)).
  rewrite IH. reflexivity.
Qed.

Lemma all_outside_snoc run c :
  all_outside run = true -> allowed c = false ->
  all_outside (run +:+ String c "") = true.
Proof.
  unfold all_outside. intros Hr Hc.
  induction run as [|x run IH]; simpl in *.
  - rewrite Hc. reflexivity.
  - change (String x run +:+ String c "")
      with (String x (run +:+ String c "")).
    simpl. apply andb_true_iff in Hr as [Hx Hr]. rewrite Hx. simpl.
    apply IH. exact Hr.
Qed.

(** The scan writes what [replaced_runs] says, from outside a run and from
    inside one. *)
Lemma sub_scan_replaces_runs s :
  replaced_runs s (sub_scan false s)
  /\ forall run,
       run <> "" -> all_outside run = true ->
       replaced_runs (run +:+ s) (String "_"%char (sub_scan true s)).
Proof.
  induction s as [|c r [IHP IHQ]].
  - split; [constructor|]. intros run Hne Ho.
    apply runs_replace; auto. constructor.
  - split.
    + simpl. destruct (allowed c) eqn:Hc; [constructor; assumption|].
      change (String c r) with (String c "" +:+ r).
      apply IHQ; [discriminate|]. unfold all_outside. simpl.
      rewrite Hc. reflexivity.
    + intros run Hne Ho. simpl. destruct (allowed c) eqn:Hc.
      * apply runs_replace; auto. constructor; assumption.
      * rewrite <- append_snoc. apply IHQ.
        -- destruct run; discriminate.
        -- apply all_outside_snoc; assumption.
Qed.

Lemma sub_scan_skips_run run s :
  all_outside run = true -> sub_scan true (run +:+ s) = sub_scan true s.
Proof.
  unfold all_outside. induction run as [|x run IH]; [reflexivity|].
  change (String x run +:+ s) with (String x (run +:+ s)). simpl.
  intros [Hx Hr]%andb_true_iff. apply negb_true_iff in Hx.
  rewrite Hx. apply IH. exact Hr.
Qed.

Lemma sub_scan_after_run s :
  starts_in_class s = true -> sub_scan true s = sub_scan false s.
Proof. destruct s as [|c r]; simpl; [reflexivity|]. intros ->. reflexivity. Qed.

(** [replaced_runs] leaves one result only, that of the scan. *)
Lemma replaced_runs_sanitize s t : replaced_runs s t -> t = sanitize s.
Proof.
  unfold sanitize. induction 1 as [|c s t Hc _ IH|run s t Hne Ho Hs _ IH].
  - reflexivity.
  - simpl. rewrite Hc, IH. reflexivity.
  - destruct run as [|x run]; [contradiction|].
    change (String x run +:+ s) with (String x (run +:+ s)). simpl.
    unfold all_outside in Ho. simpl in Ho.
    apply andb_true_iff in Ho as [Hx Ho]. apply negb_true_iff in Hx.
    rewrite Hx, (sub_scan_skips_run run s Ho), (sub_scan_after_run s Hs), IH.
    reflexivity.
Qed.

(** C5, as the code has it. Whatever the input string, every character of
    the result of [re.sub('[^a-zA-Z0-9.-]+', '_', s)] is in the class
    [A-Za-z0-9.-] or is [_]; the result is the input with the characters
    of the class kept and every maximal run of characters outside the
    class replaced by one [_], and nothing else is; and [re_sub] on a
    string value gives that result. *)
Theorem sanitize_output_clean (s : string) :
  Forall (fun c => allowed c = true \/ c = "_"%char) (chars (sanitize s))
  /\ (forall t, replaced_runs s t <-> t = sanitize s)
  /\ re_sub (VStr s) = Ok (VStr (sanitize s)).
Proof.
  split; [|split; [|reflexivity]].
  - eapply Forall_impl; [apply sub_scan_clean|].
    intros c Hc. unfold clean_char in Hc.
    apply orb_true_iff in Hc as [Hc|Hc]; [left; exact Hc|right].
    apply Ascii.eqb_eq in Hc. exact Hc.
  - intros t. split; [apply replaced_runs_sanitize|].
    intros ->. apply (proj1 (sub_scan_replaces_runs s)).
Qed.

(** C5, as the claim has it, fails: the two blanks of ["a  b"] are
    replaced by one [_], not by one each. *)
Lemma one_underscore_per_run :
  sanitize "a  b" = "a_b"
  /\ replace_each "a  b" = "a__b"
  /\ sanitize "a  b" <> replace_each "a  b".
Proof. repeat split. discriminate. Qed.

(** C6. The substitution is idempotent: applied to its own result it
    gives that result back. *)
Theorem sanitize_idempotent (s : string) :
  sanitize (sanitize s) = sanitize s.
Proof. unfold sanitize. apply (proj1 (sub_scan_fixed s)). Qed.

(** ** The log *)

Lemma popen_calls_app l1 l2 :
  popen_calls (l1 ++ l2) = popen_calls l1 ++ popen_calls l2.
Proof. apply omap_app. Qed.

Lemma slack_calls_app l1 l2 :
  slack_calls (l1 ++ l2) = slack_calls l1 ++ slack_calls l2.
Proof. apply omap_app. Qed.

Lemma tool_calls_app l1 l2 :
  tool_calls (l1 ++ l2) = tool_calls l1 ++ tool_calls l2.
Proof. apply omap_app. Qed.

Lemma outputs_app l1 l2 : outputs (l1 ++ l2) = outputs l1 ++ outputs l2.
Proof. apply omap_app. Qed.

Ltac log_simpl :=
  repeat first
    [ rewrite popen_calls_app | rewrite slack_calls_app
    | rewrite tool_calls_app | rewrite outputs_app ];
  simpl; rewrite ?app_nil_r.

(** ** Quiet computations *)

Section Quiet.
Context {A B : Type}.

Lemma quiet_ret (a : A) : quiet (mret a).
Proof. intros s. simpl. auto. Qed.

Lemma quiet_raise e : quiet (raise e : M A).
Proof. intros s. simpl. auto. Qed.

Lemma quiet_return : quiet (return_ : M A).
Proof. intros s. simpl. auto. Qed.

Lemma quiet_lift (r : exc A) : quiet (lift r).
Proof. destruct r; intros s; simpl; auto. Qed.

Lemma quiet_bind (m : M A) (k : A -> M B) :
  quiet m -> (forall a, quiet (k a)) -> quiet (m ≫= k).
Proof.
  intros Hm Hk s. specialize (Hm s).
  unfold mbind, M_bind, bind.
  destruct (m s) as [[a| |e] s1]; simpl in *; [|exact Hm|exact Hm].
  destruct Hm as (H1 & H2 & H3), (Hk a s1) as (K1 & K2 & K3).
  repeat split; [congruence|congruence|].
  intros k0 N1 N2. rewrite K3, H3; auto.
Qed.
End Quiet.

Lemma quiet_env_getitem k : quiet (env_getitem k).
Proof. intros s. unfold env_getitem. destruct (env s !! k); simpl; auto. Qed.

Lemma quiet_env_get k : quiet (env_get k).
Proof. intros s. simpl. auto. Qed.

Lemma quiet_env_contains k : quiet (env_contains k).
Proof. intros s. simpl. auto. Qed.

Lemma quiet_set_package_file v : quiet (env_setitem "package_file" v).
Proof.
  intros s. simpl. repeat split; auto.
  intros k N1 N2. apply lookup_insert_ne. congruence.
Qed.

Lemma quiet_set_pkginfo_file v : quiet (env_setitem "pkginfo_file" v).
Proof.
  intros s. simpl. repeat split; auto.
  intros k N1 N2. apply lookup_insert_ne. congruence.
Qed.

Lemma quiet_output msg : quiet (output msg).
Proof. intros s. simpl. log_simpl. auto. Qed.

Lemma quiet_tool_call args : quiet (emit (EvCall args)).
Proof. intros s. simpl. log_simpl. auto. Qed.

Lemma quiet_os_path_exists p : quiet (os_path_exists p).
Proof. intros s. destruct p; simpl; auto. Qed.

Lemma quiet_write_file w p data : quiet (write_file w p data).
Proof.
  intros s. unfold write_file.
  destruct p; simpl; auto. destruct (can_write w s0); simpl; auto.
Qed.

Lemma quiet_read_plist w p : quiet (read_plist w p).
Proof.
  intros s. unfold read_plist. destruct p; simpl; auto.
  destruct (fs s !! s0); simpl; auto. apply quiet_lift.
Qed.

Lemma quiet_when b (m : M unit) : quiet m -> quiet (when_ b m).
Proof. intros Hm. destruct b; simpl; [exact Hm|apply (@quiet_ret unit)]. Qed.

Create HintDb quiet_db.
#[local] Hint Resolve quiet_env_getitem quiet_env_get quiet_env_contains
  quiet_set_package_file quiet_set_pkginfo_file quiet_output
  quiet_tool_call quiet_os_path_exists quiet_write_file quiet_read_plist
  : quiet_db.

(** Takes a computation apart along its binds and branches. *)
Ltac quiet_steps :=
  repeat first
    [ apply quiet_bind; [|intros ?]
    | apply quiet_when
    | apply quiet_ret
    | apply quiet_return
    | apply quiet_raise
    | apply quiet_lift
    | solve [auto with quiet_db]
    | match goal with
      | |- quiet (if ?b then _ else _) => destruct b
      | |- quiet (match ?x with _ => _ end) => destruct x
      end ].

Lemma quiet_write_plist w v p : quiet (write_plist w v p).
Proof. unfold write_plist. quiet_steps. Qed.

Lemma quiet_extend_if_set k flag args : quiet (extend_if_set k flag args).
Proof. unfold extend_if_set. quiet_steps. Qed.

Lemma quiet_make_pkg_info w pf : quiet (make_pkg_info w pf).
Proof.
  unfold make_pkg_info.
  pose proof quiet_write_plist. pose proof quiet_extend_if_set.
  quiet_steps.
Qed.

Lemma quiet_locate_package : quiet locate_package.
Proof. unfold locate_package. quiet_steps. Qed.

Lemma quiet_load_pkginfo w : quiet (load_pkginfo w).
Proof.
  unfold load_pkginfo. pose proof quiet_make_pkg_info. quiet_steps.
Qed.

Lemma quiet_prepare w : quiet (prepare w).
Proof.
  unfold prepare.
  pose proof quiet_locate_package. pose proof quiet_load_pkginfo.
  quiet_steps.
Qed.

(** ** The two curl commands *)

Lemma length_append a b :
  String.length (a +:+ b) = String.length a + String.length b.
Proof.
  induction a as [|c r IH]; [reflexivity|].
  change (String c r +:+ b) with (String c (r +:+ b)).
  simpl. rewrite IH. reflexivity.
Qed.

Lemma long_not_form_flag s : 2 < String.length s -> String.eqb s "-F" = false.
Proof.
  destruct s as [|a [|b [|c r]]]; simpl; try lia. intros _.
  destruct (Ascii.eqb a "-"), (Ascii.eqb b "F"); reflexivity.
Qed.

Lemma append_assoc (a b c : string) : (a +:+ b) +:+ c = a +:+ b +:+ c.
Proof.
  induction a as [|x r IH]; [reflexivity|].
  change (String x r +:+ b) with (String x (r +:+ b)).
  change (String x (r +:+ b) +:+ c) with (String x ((r +:+ b) +:+ c)).
  rewrite IH. reflexivity.
Qed.

(** Takes a computation apart into the cases of its matches. *)
Ltac monad_unfold :=
  unfold write_plist, read_plist, write_file,
    os_path_exists, output, emit, env_setitem, env_contains, env_get,
    env_getitem, when_, try_except, fn_body, lift, raise, return_,
    mbind, mret, M_bind, M_ret, bind, ret, str_add in *.

Ltac munfold :=
  unfold quit_if_exists, curl_json, query_cmd, upload_cmd,
    send_slack_notification in *;
  monad_unfold.

Ltac mcases := repeat (case_match; simpl in *; simplify_eq).

Lemma query_cmd_inv n v s o s' :
  query_cmd n v s = (o, s') ->
  s' = s
  /\ match o with
     | Val cmd =>
         exists a u sn sv curl key,
           env s !! "api_url" = Some (VStr a)
           /\ env s !! "unit" = Some (VStr u)
           /\ n = VStr sn /\ v = VStr sv
           /\ env s !! "CURL_PATH" = Some curl
           /\ env s !! "api_key" = Some (VStr key)
           /\ cmd = [curl; VStr "--header"; VStr ("X-Api-Key: " +:+ key);
                     VStr "--url";
                     VStr (a +:+ "/" +:+ u +:+ "/packages/" +:+ sn
                           +:+ "/" +:+ sv)]
     | Return => False
     | Raise _ => True
     end.
Proof.
  intros H. munfold. mcases; split; auto.
  rewrite !append_assoc. do 6 eexists.
  repeat split; try reflexivity; eassumption.
Qed.

Lemma upload_cmd_inv s o s' :
  upload_cmd s = (o, s') ->
  s' = s
  /\ match o with
     | Val cmd =>
         exists a u curl key pi pf,
           env s !! "api_url" = Some (VStr a)
           /\ env s !! "unit" = Some (VStr u)
           /\ env s !! "CURL_PATH" = Some curl
           /\ env s !! "api_key" = Some (VStr key)
           /\ env s !! "pkginfo_file" = Some (VStr pi)
           /\ env s !! "package_file" = Some (VStr pf)
           /\ cmd = [curl; VStr "--header"; VStr ("X-Api-Key: " +:+ key);
                     VStr "-F"; VStr ("pkginfo_file=@" +:+ pi);
                     VStr "-F"; VStr ("package_file=@" +:+ pf);
                     VStr "--url"; VStr (a +:+ "/" +:+ u +:+ "/packages")]
     | Return => False
     | Raise _ => True
     end.
Proof.
  intros H. munfold. mcases; split; auto.
  rewrite !append_assoc. do 6 eexists.
  repeat split; try reflexivity; eassumption.
Qed.

Lemma query_cmd_not_upload n v s cmd s' :
  query_cmd n v s = (Val cmd, s') -> is_upload_cmd cmd = false.
Proof.
  intros H. apply query_cmd_inv in H as [_ H].
  destruct H as (a & u & sn & sv & curl & key & _ & _ & _ & _ & _ & _ & ->).
  unfold is_upload_cmd. cbn [tail existsb eq_str].
  rewrite (long_not_form_flag (a +:+ _)); [reflexivity|].
  rewrite !length_append. simpl. lia.
Qed.

Lemma upload_cmd_is_upload s cmd s' :
  upload_cmd s = (Val cmd, s') -> is_upload_cmd cmd = true.
Proof.
  intros H. apply upload_cmd_inv in H as [_ H].
  destruct H as (a & u & curl & key & pi & pf & _ & _ & _ & _ & _ & _ & ->).
  reflexivity.
Qed.

(** A missing [api_url] or [api_key] makes the first [try] block raise. *)
Lemma query_cmd_absent n v s :
  absent (env s) "api_url" \/ absent (env s) "api_key" ->
  exists x, query_cmd n v s = (Raise x, s).
Proof.
  intros H. destruct (query_cmd n v s) as [[cmd| |x] s1] eqn:E;
    apply query_cmd_inv in E as [-> E]; [|contradiction|eauto].
  destruct E as (a & u & sn & sv & curl & key & Ha & _ & _ & _ & _ & Hk & _).
  unfold absent in H. rewrite Ha, Hk in H.
  destruct H as [[?|?]|[?|?]]; discriminate.
Qed.

(** ** Runs of [main] *)

(** A run of [main] is a run of [prepare], followed when it yields a name
    and a version by the two calls to munkiserver. *)
Lemma main_inv w s out s' :
  main w s = (out, s') ->
  match prepare w s with
  | (Val (n, v), s1) =>
      fn_body (check_exists w n v;; upload_package w;; return_) s1
      = (out, s')
  | (Return, s1) => out = Val tt /\ s' = s1
  | (Raise x, s1) => out = Raise x /\ s' = s1
  end.
Proof.
  unfold main, fn_body, mbind, M_bind, bind.
  destruct (prepare w s) as [[[n v]| |x] s1]; simpl; intros H;
    simplify_eq; auto.
Qed.

(** The state after one more event. *)
Lemma curl_json_eq w cmd s :
  curl_json w cmd s
  = (match popen w cmd with
     | Err x => Raise x
     | Ok body =>
         match json_loads w body with
         | Some r => Val r
         | None => Raise ValueError
         end
     end,
     mkState (env s) (fs s) (log s ++ [EvPopen cmd])).
Proof.
  munfold. simpl. destruct (popen w cmd) as [body|x]; [|reflexivity].
  destruct (json_loads w body); reflexivity.
Qed.

(** What [quit_if_exists] does, by its outcome. *)
Lemma quit_if_exists_inv n v r s o s' :
  quit_if_exists n v r s = (o, s') ->
  env s' = env s /\ fs s' = fs s
  /\ popen_calls (log s') = popen_calls (log s)
  /\ slack_calls (log s') = slack_calls (log s)
  /\ match o with
     | Val _ => s' = s /\ exists t, getitem r "exists" = Ok t /\ truthy t = false
     | Return =>
         (exists t, getitem r "exists" = Ok t /\ truthy t = true)
         /\ exists sn sv, n = VStr sn /\ v = VStr sv
            /\ log s' = log s ++
                 [EvOutput (VStr (sn +:+ " version " +:+ sv +:+
                            " is already in munkiserver.  Quitting."))]
     | Raise x =>
         s' = s
         /\ (getitem r "exists" = Err x
             \/ ~ exists sn sv, n = VStr sn /\ v = VStr sv)
     end.
Proof.
  intros H. munfold. mcases; log_simpl; repeat split; eauto;
    try (right; intros (sn & sv & ? & ?); discriminate).
  rewrite !append_assoc. eauto.
Qed.

(** What [send_slack_notification] does: at most one post, of the message
    it is given, and exactly one when there is a token in [self.env]. *)
Lemma send_slack_notification_inv w msg s o s' :
  send_slack_notification w msg s = (o, s') ->
  env s' = env s /\ fs s' = fs s /\ o <> Return
  /\ popen_calls (log s') = popen_calls (log s)
  /\ outputs (log s') = outputs (log s)
  /\ match env s !! "slack_api_token" with
     | Some token =>
         log s' = log s ++ [EvSlack token "munkiserver-packages" msg]
     | None => s' = s /\ o = Raise KeyError
     end.
Proof.
  intros H. munfold. mcases; log_simpl; repeat split; eauto; try discriminate.
  all: destruct a1; simpl in *; discriminate.
Qed.

(** What [report_upload] does, by the [type] of the response. *)
Lemma report_upload_inv w r s o s' :
  report_upload w r s = (o, s') ->
  env s' = env s /\ fs s' = fs s /\ o <> Return
  /\ popen_calls (log s') = popen_calls (log s)
  /\ match getitem r "type" with
     | Err x => o = Raise x /\ s' = s
     | Ok ty =>
         if eq_str ty "success" then
           forall m url,
             getitem r "message" = Ok (VStr m) ->
             getitem r "edit_url" = Ok (VStr url) ->
             outputs (log s')
             = outputs (log s) ++ [VStr ("Upload succeeded: " +:+ m);
                                   VStr ("URL: " +:+ url)]
             /\ match env s !! "slack_api_token" with
                | Some token =>
                    slack_calls (log s')
                    = slack_calls (log s) ++ [VStr (slack_text +:+ url)]
                | None =>
                    slack_calls (log s') = slack_calls (log s)
                    /\ o = Raise KeyError
                end
         else
           slack_calls (log s') = slack_calls (log s)
           /\ forall m,
                getitem r "message" = Ok (VStr m) ->
                o = Val tt
                /\ log s' = log s ++
                     [EvOutput (VStr ("Upload failed: " +:+ m))]
     end.
Proof.
  intros H. unfold report_upload in H. monad_unfold.
  mcases;
    try (apply send_slack_notification_inv in H
           as (He & Hf & Ho & Hp & Hout & Hs); simpl in *;
         revert Hp Hout; log_simpl; intros Hp Hout);
    log_simpl; repeat split; auto; try discriminate; intros; simplify_eq;
    rewrite ?H1 in *; mcases; log_simpl; auto.
  - rewrite Hout, <- app_assoc. reflexivity.
  - rewrite Hs. log_simpl. reflexivity.
  - rewrite Hout, <- app_assoc. reflexivity.
  - destruct Hs as [-> _]. simpl. log_simpl. reflexivity.
  - destruct Hs as [_ ->]. reflexivity.
Qed.

(** A run of [upload_package], by what the world answers. *)
Lemma upload_package_inv w s o s' :
  upload_package w s = (o, s') ->
  match upload_cmd s with
  | (Val u, _) =>
      is_upload_cmd u = true
      /\ match popen w u with
         | Err x =>
             o = Raise x
             /\ s' = mkState (env s) (fs s) (log s ++ [EvPopen u])
         | Ok body =>
             match json_loads w body with
             | None =>
                 o = Raise ValueError
                 /\ s' = mkState (env s) (fs s) (log s ++ [EvPopen u])
             | Some r =>
                 report_upload w r
                   (mkState (env s) (fs s) (log s ++ [EvPopen u]))
                 = (o, s')
             end
         end
  | (_, _) =>
      o = Return
      /\ s' = mkState (env s) (fs s)
                (log s ++ [EvOutput (VStr config_hint)])
  end.
Proof.
  intros H. unfold upload_package, mbind, M_bind, bind, try_except in H.
  destruct (upload_cmd s) as [[u| |x] s1] eqn:Hu.
  - split; [eapply upload_cmd_is_upload; eauto|].
    apply upload_cmd_inv in Hu as [-> _].
    rewrite curl_json_eq in H.
    destruct (popen w u) as [body|x]; [|simplify_eq; auto].
    destruct (json_loads w body); simplify_eq; auto.
  - apply upload_cmd_inv in Hu as [_ []].
  - apply upload_cmd_inv in Hu as [-> _]. simpl in H. simplify_eq. auto.
Qed.

(** A run of [check_exists], by what the world answers. *)
Lemma check_exists_inv w n v s o s' :
  check_exists w n v s = (o, s') ->
  match query_cmd n v s with
  | (Val q, _) =>
      is_upload_cmd q = false
      /\ (exists sn sv, n = VStr sn /\ v = VStr sv)
      /\ match popen w q with
         | Err x =>
             o = Raise x
             /\ s' = mkState (env s) (fs s) (log s ++ [EvPopen q])
         | Ok body =>
             match json_loads w body with
             | None =>
                 o = Raise ValueError
                 /\ s' = mkState (env s) (fs s) (log s ++ [EvPopen q])
             | Some r =>
                 quit_if_exists n v r
                   (mkState (env s) (fs s) (log s ++ [EvPopen q]))
                 = (o, s')
             end
         end
  | (_, _) =>
      o = Return
      /\ s' = mkState (env s) (fs s)
                (log s ++ [EvOutput (VStr config_hint)])
  end.
Proof.
  intros H. unfold check_exists, mbind, M_bind, bind, try_except in H.
  destruct (query_cmd n v s) as [[q| |x] s1] eqn:Hq.
  - split; [eapply query_cmd_not_upload; eauto|].
    apply query_cmd_inv in Hq as [-> Hq].
    split; [destruct Hq as (? & ? & sn & sv & ? & ? & ? & ? & ? & ? & ?);
            eauto|].
    rewrite curl_json_eq in H.
    destruct (popen w q) as [body|x]; [|simplify_eq; auto].
    destruct (json_loads w body); simplify_eq; auto.
  - apply query_cmd_inv in Hq as [_ []].
  - apply query_cmd_inv in Hq as [-> _]. simpl in H. simplify_eq. auto.
Qed.

(** The two calls to munkiserver in sequence. *)
Lemma registry_inv w n v s out s' :
  fn_body (check_exists w n v;; upload_package w;; return_) s = (out, s') ->
  exists o1 s2,
    check_exists w n v s = (o1, s2)
    /\ match o1 with
       | Val _ =>
           exists o2,
             upload_package w s2 = (o2, s')
             /\ out = match o2 with Raise x => Raise x | _ => Val tt end
       | Return => out = Val tt /\ s' = s2
       | Raise x => out = Raise x /\ s' = s2
       end.
Proof.
  unfold fn_body, mbind, M_bind, bind, return_. intros H.
  destruct (check_exists w n v s) as [[[]| |x] s2]; simplify_eq;
    [|exists Return, s' ; auto|exists (Raise x), s'; auto].
  exists (Val tt), s2. split; [reflexivity|].
  destruct (upload_package w s2) as [[[]| |x] s3]; simplify_eq;
    [exists (Val tt)|exists Return|exists (Raise x)]; auto.
Qed.

(** [check_exists] calls munkiserver once, with the command of the query,
    when that command can be built, and not at all when it cannot. *)
Lemma check_exists_calls w n v s o s' :
  check_exists w n v s = (o, s') ->
  slack_calls (log s') = slack_calls (log s)
  /\ env s' = env s /\ fs s' = fs s
  /\ match query_cmd n v s with
     | (Val q, _) => popen_calls (log s') = popen_calls (log s) ++ [q]
     | (_, _) =>
         o = Return /\ log s' = log s ++ [EvOutput (VStr config_hint)]
     end.
Proof.
  intros H. apply check_exists_inv in H.
  destruct (query_cmd n v s) as [[q| |x] sq].
  - destruct H as (_ & _ & H).
    destruct (popen w q) as [body|x];
      [|destruct H as [-> ->]; simpl; log_simpl; auto].
    destruct (json_loads w body) as [r|];
      [|destruct H as [-> ->]; simpl; log_simpl; auto].
    apply quit_if_exists_inv in H as (He & Hf & Hp & Hs & _).
    revert Hp Hs. simpl. log_simpl. auto.
  - destruct H as [-> ->]. simpl. log_simpl. auto.
  - destruct H as [-> ->]. simpl. log_simpl. auto.
Qed.

(** [upload_package] calls munkiserver at most once, with a multipart
    POST. *)
Lemma upload_package_calls w s o s' :
  upload_package w s = (o, s') ->
  env s' = env s /\ fs s' = fs s
  /\ match upload_cmd s with
     | (Val u, _) =>
         is_upload_cmd u = true
         /\ popen_calls (log s') = popen_calls (log s) ++ [u]
     | (_, _) =>
         o = Return /\ log s' = log s ++ [EvOutput (VStr config_hint)]
     end.
Proof.
  intros H. apply upload_package_inv in H.
  destruct (upload_cmd s) as [[u| |x] su].
  - destruct H as (Hu & H).
    destruct (popen w u) as [body|x];
      [|destruct H as [-> ->]; simpl; log_simpl; auto].
    destruct (json_loads w body) as [r|];
      [|destruct H as [-> ->]; simpl; log_simpl; auto].
    apply report_upload_inv in H as (He & Hf & _ & Hp & _).
    revert Hp. simpl. log_simpl. auto.
  - destruct H as [-> ->]. simpl. log_simpl. auto.
  - destruct H as [-> ->]. simpl. log_simpl. auto.
Qed.

(** The calls to munkiserver of a whole run: none, or the query, or the
    query and then the upload. *)
Lemma run_main_calls w e f out s' :
  run_main w e f = (out, s') ->
  popen_calls (log s') = []
  \/ exists q,
       is_upload_cmd q = false
       /\ (popen_calls (log s') = [q]
           \/ exists u, is_upload_cmd u = true
                        /\ popen_calls (log s') = [q; u]).
Proof.
  intros Hrun. unfold run_main in Hrun. apply main_inv in Hrun.
  pose proof (quiet_prepare w (mkState e f [])) as (Q1 & _).
  destruct (prepare w _) as [[[n v]| |x] s1]; simpl in Q1;
    [|destruct Hrun as [_ ->]; auto|destruct Hrun as [_ ->]; auto].
  apply registry_inv in Hrun as (o1 & s2 & Hc & Hrest).
  pose proof (check_exists_calls _ _ _ _ _ _ Hc) as (_ & _ & _ & Hcalls).
  pose proof (check_exists_inv _ _ _ _ _ _ Hc) as Hinv.
  destruct (query_cmd n v s1) as [[q| |x] sq].
  - destruct Hinv as (Hnu & _). rewrite Q1 in Hcalls. simpl in Hcalls.
    right. exists q. split; [exact Hnu|].
    destruct o1 as [[]| |x]; [|destruct Hrest as [_ ->]; auto
                              |destruct Hrest as [_ ->]; auto].
    destruct Hrest as (o2 & Hu & _).
    apply upload_package_calls in Hu as (_ & _ & Hu).
    destruct (upload_cmd s2) as [[u| |x] su].
    + destruct Hu as (Hiu & Hu). right. exists u. split; [exact Hiu|].
      rewrite Hu, Hcalls. reflexivity.
    + destruct Hu as [_ Hu]. left. rewrite Hu. log_simpl. exact Hcalls.
    + destruct Hu as [_ Hu]. left. rewrite Hu. log_simpl. exact Hcalls.
  - destruct Hcalls as [-> Hl]. destruct Hrest as [_ ->].
    left. rewrite Hl. log_simpl. exact Q1.
  - destruct Hcalls as [-> Hl]. destruct Hrest as [_ ->].
    left. rewrite Hl. log_simpl. exact Q1.
Qed.

(** A run that made the query [cmd]: how it got there and how it went on,
    by what the world answers to [cmd]. *)
Lemma run_main_query w e f out s' cmd :
  run_main w e f = (out, s') ->
  cmd ∈ popen_calls (log s') ->
  is_upload_cmd cmd = false ->
  exists n v s1,
    prepare w (mkState e f []) = (Val (VStr n, VStr v), s1)
    /\ popen_calls (log s1) = []
    /\ slack_calls (log s1) = []
    /\ query_cmd (VStr n) (VStr v) s1 = (Val cmd, s1)
    /\ match popen w cmd with
       | Err x =>
           out = Raise x
           /\ s' = mkState (env s1) (fs s1) (log s1 ++ [EvPopen cmd])
       | Ok body =>
           match json_loads w body with
           | None =>
               out = Raise ValueError
               /\ s' = mkState (env s1) (fs s1) (log s1 ++ [EvPopen cmd])
           | Some r =>
               exists o1 s2,
                 quit_if_exists (VStr n) (VStr v) r
                   (mkState (env s1) (fs s1) (log s1 ++ [EvPopen cmd]))
                 = (o1, s2)
                 /\ match o1 with
                    | Val _ =>
                        exists o2,
                          upload_package w s2 = (o2, s')
                          /\ out = match o2 with
                                   | Raise x => Raise x
                                   | _ => Val tt
                                   end
                    | Return => out = Val tt /\ s' = s2
                    | Raise x => out = Raise x /\ s' = s2
                    end
           end
       end.
Proof.
  intros Hrun Hin Hnu.
  pose proof (run_main_calls _ _ _ _ _ Hrun) as Hcalls.
  unfold run_main in Hrun. apply main_inv in Hrun.
  pose proof (quiet_prepare w (mkState e f [])) as (Q1 & Q2 & _).
  destruct (prepare w _) as [[[n v]| |x] s1] eqn:Hprep; simpl in Q1, Q2;
    [|destruct Hrun as [_ ->]; rewrite Q1 in Hin; inversion Hin
     |destruct Hrun as [_ ->]; rewrite Q1 in Hin; inversion Hin].
  apply registry_inv in Hrun as (o1 & s2 & Hc & Hrest).
  pose proof (check_exists_calls _ _ _ _ _ _ Hc) as (_ & _ & _ & Hcc).
  pose proof (check_exists_inv _ _ _ _ _ _ Hc) as Hinv.
  destruct (query_cmd n v s1) as [[q| |x] sq] eqn:Hq.
  - apply query_cmd_inv in Hq as Hq'. destruct Hq' as [-> _].
    destruct Hinv as (Hqnu & (sn & sv & -> & ->) & Hinv).
    rewrite Q1 in Hcc. simpl in Hcc.
    assert (cmd = q) as ->.
    { destruct o1 as [[]| |x].
      - destruct Hrest as (o2 & Hu & _).
        apply upload_package_calls in Hu as (_ & _ & Hu).
        destruct (upload_cmd s2) as [[u| |x] su].
        + destruct Hu as (Hiu & Hu). rewrite Hu, Hcc in Hin.
          apply elem_of_cons in Hin as [->|Hin]; [reflexivity|].
          apply list_elem_of_singleton in Hin as ->. congruence.
        + destruct Hu as [_ Hu]. rewrite Hu in Hin. revert Hin. log_simpl.
          rewrite Hcc. intros ->%list_elem_of_singleton. reflexivity.
        + destruct Hu as [_ Hu]. rewrite Hu in Hin. revert Hin. log_simpl.
          rewrite Hcc. intros ->%list_elem_of_singleton. reflexivity.
      - destruct Hrest as [_ ->]. rewrite Hcc in Hin.
        apply list_elem_of_singleton in Hin. exact Hin.
      - destruct Hrest as [_ ->]. rewrite Hcc in Hin.
        apply list_elem_of_singleton in Hin. exact Hin. }
    exists sn, sv, s1. split; [reflexivity|].
    split; [exact Q1|]. split; [exact Q2|]. split; [exact Hq|].
    destruct (popen w q) as [body|x].
    + destruct (json_loads w body) as [r|].
      * exists o1, s2. split; [exact Hinv|]. exact Hrest.
      * destruct Hinv as [-> ->]. destruct Hrest as [-> ->]. auto.
    + destruct Hinv as [-> ->]. destruct Hrest as [-> ->]. auto.
  - destruct Hcc as [-> Hl]. destruct Hrest as [_ ->].
    rewrite Hl in Hin. revert Hin. log_simpl. rewrite Q1.
    intros Hin. inversion Hin.
  - destruct Hcc as [-> Hl]. destruct Hrest as [_ ->].
    rewrite Hl in Hin. revert Hin. log_simpl. rewrite Q1.
    intros Hin. inversion Hin.
Qed.

(** A run that made the upload [cmd]: the state it was made in, and how
    the run ended, by what the world answers to [cmd]. *)
Lemma run_main_upload w e f out s' cmd :
  run_main w e f = (out, s') ->
  cmd ∈ popen_calls (log s') ->
  is_upload_cmd cmd = true ->
  exists n v s1 s2,
    prepare w (mkState e f []) = (Val (n, v), s1)
    /\ env s2 = env s1 /\ fs s2 = fs s1
    /\ upload_cmd s2 = (Val cmd, s2)
    /\ slack_calls (log s2) = []
    /\ (forall k, k <> "package_file" -> k <> "pkginfo_file" ->
          env s2 !! k = e !! k)
    /\ match popen w cmd with
       | Err x =>
           out = Raise x
           /\ s' = mkState (env s2) (fs s2) (log s2 ++ [EvPopen cmd])
       | Ok body =>
           match json_loads w body with
           | None =>
               out = Raise ValueError
               /\ s' = mkState (env s2) (fs s2) (log s2 ++ [EvPopen cmd])
           | Some r =>
               exists o2,
                 report_upload w r
                   (mkState (env s2) (fs s2) (log s2 ++ [EvPopen cmd]))
                 = (o2, s')
                 /\ out = match o2 with Raise x => Raise x | _ => Val tt end
           end
       end.
Proof.
  intros Hrun Hin Hiu.
  unfold run_main in Hrun. apply main_inv in Hrun.
  pose proof (quiet_prepare w (mkState e f [])) as (Q1 & Q2 & Q3).
  destruct (prepare w _) as [[[n v]| |x] s1] eqn:Hprep; simpl in Q1, Q2, Q3;
    [|destruct Hrun as [_ ->]; rewrite Q1 in Hin; inversion Hin
     |destruct Hrun as [_ ->]; rewrite Q1 in Hin; inversion Hin].
  apply registry_inv in Hrun as (o1 & s2 & Hc & Hrest).
  pose proof (check_exists_calls _ _ _ _ _ _ Hc) as (Hs2 & He2 & Hf2 & Hcc).
  pose proof (check_exists_inv _ _ _ _ _ _ Hc) as Hinv.
  assert (exists q, is_upload_cmd q = false
                    /\ popen_calls (log s2) = [q] /\ o1 <> Return
          \/ popen_calls (log s2) = [] /\ o1 = Return) as Hq.
  { destruct (query_cmd n v s1) as [[q| |x] sq].
    - destruct Hinv as (Hnu & _ & Hinv). exists q. left.
      rewrite Q1 in Hcc. repeat split; auto. intros ->.
      destruct (popen w q) as [body|x]; [|destruct Hinv; discriminate].
      destruct (json_loads w body) as [r|]; [|destruct Hinv; discriminate].
      apply quit_if_exists_inv in Hinv as (_ & _ & _ & _ & Hinv).
      pose proof Hin as Hin'. destruct Hrest as [_ ->].
      rewrite Hcc in Hin'. apply list_elem_of_singleton in Hin'.
      congruence.
    - exists []. right. destruct Hcc as [-> Hl]. split; [|reflexivity].
      rewrite Hl. log_simpl. exact Q1.
    - exists []. right. destruct Hcc as [-> Hl]. split; [|reflexivity].
      rewrite Hl. log_simpl. exact Q1. }
  destruct Hq as (q & [(Hnu & Hq & Hnr)|[Hq ->]]);
    [|destruct Hrest as [_ ->]; rewrite Hq in Hin; inversion Hin].
  destruct o1 as [[]| |x]; [|contradiction|].
  - destruct Hrest as (o2 & Hu & ->).
    pose proof (upload_package_calls _ _ _ _ Hu) as (_ & _ & Huc).
    apply upload_package_inv in Hu.
    destruct (upload_cmd s2) as [[u| |x] su] eqn:Hucmd.
    + apply upload_cmd_inv in Hucmd as Hu'. destruct Hu' as [-> _].
      destruct Huc as [_ Huc]. rewrite Huc, Hq in Hin.
      apply elem_of_cons in Hin as [->|Hin]; [congruence|].
      apply list_elem_of_singleton in Hin as ->.
      exists n, v, s1, s2. split; [reflexivity|].
      split; [exact He2|]. split; [exact Hf2|].
      split; [exact Hucmd|]. split; [congruence|].
      split; [intros k N1 N2; rewrite He2; auto|].
      destruct Hu as [_ Hu].
      destruct (popen w u) as [body|x]; [|destruct Hu as [-> ->]; auto].
      destruct (json_loads w body) as [r|]; [|destruct Hu as [-> ->]; auto].
      exists o2. auto.
    + destruct Huc as [_ Huc]. rewrite Huc in Hin. revert Hin. log_simpl.
      rewrite Hq. intros ->%list_elem_of_singleton. congruence.
    + destruct Huc as [_ Huc]. rewrite Huc in Hin. revert Hin. log_simpl.
      rewrite Hq. intros ->%list_elem_of_singleton. congruence.
  - destruct Hrest as [_ ->]. rewrite Hq in Hin.
    apply list_elem_of_singleton in Hin as ->. congruence.
Qed.

(** ** The claims about the run *)

(** C1. In a run whose query to the registry is answered by a JSON object
    with [exists] true, the query is the only call to munkiserver: the
    run ends normally, and no multipart POST is made. *)
Theorem exists_true_no_upload w e f out s' cmd body d :
  run_main w e f = (out, s') ->
  cmd ∈ popen_calls (log s') ->
  is_upload_cmd cmd = false ->
  popen w cmd = Ok body ->
  json_loads w body = Some (VDict d) ->
  d !! "exists" = Some (VBool true) ->
  out = Val tt
  /\ popen_calls (log s') = [cmd]
  /\ upload_calls (log s') = [].
Proof.
  intros Hrun Hin Hnu Hp Hj Hd.
  destruct (run_main_query _ _ _ _ _ _ Hrun Hin Hnu)
    as (n & v & s1 & _ & Q1 & _ & _ & H).
  rewrite Hp, Hj in H. destruct H as (o1 & s2 & Hquit & Hrest).
  apply quit_if_exists_inv in Hquit as (_ & _ & Hcalls & _ & Ho).
  revert Hcalls. simpl. log_simpl. rewrite Q1. simpl. intros Hcalls.
  unfold getitem in Ho. rewrite Hd in Ho. destruct o1 as [[]| |x].
  - destruct Ho as (_ & t & Ht & Hf). simplify_eq.
  - destruct Hrest as [-> ->]. unfold upload_calls. rewrite Hcalls.
    simpl. rewrite Hnu. auto.
  - destruct Ho as (_ & [Ho|Ho]); [discriminate|].
    exfalso. apply Ho. eauto.
Qed.

(** C4. In a run whose upload is answered by a JSON object whose [type]
    is not ["success"], no Slack notification is posted; and when the
    object has a string [message], the run ends normally and the last
    thing it does is to report ["Upload failed: "] with that message. *)
Theorem upload_failure_reported w e f out s' cmd body r ty :
  run_main w e f = (out, s') ->
  cmd ∈ popen_calls (log s') ->
  is_upload_cmd cmd = true ->
  popen w cmd = Ok body ->
  json_loads w body = Some r ->
  getitem r "type" = Ok ty ->
  eq_str ty "success" = false ->
  slack_calls (log s') = []
  /\ forall m,
       getitem r "message" = Ok (VStr m) ->
       out = Val tt
       /\ last (log s') = Some (EvOutput (VStr ("Upload failed: " +:+ m))).
Proof.
  intros Hrun Hin Hiu Hp Hj Hty Hne.
  destruct (run_main_upload _ _ _ _ _ _ Hrun Hin Hiu)
    as (_ & _ & _ & s2 & _ & _ & _ & _ & Q2 & _ & H).
  rewrite Hp, Hj in H. destruct H as (o2 & Hrep & ->).
  apply report_upload_inv in Hrep as (_ & _ & _ & _ & H).
  rewrite Hty, Hne in H. destruct H as [Hs H].
  revert Hs. simpl. log_simpl. rewrite Q2. intros Hs.
  split; [exact Hs|]. intros m Hm.
  destruct (H m Hm) as [-> Hl]. split; [reflexivity|].
  rewrite Hl. apply last_snoc.
Qed.

(** C2. In a run whose query is answered with [exists] false and whose
    upload is answered with [type] ["success"], a [message] and an
    [edit_url], exactly one Slack notification is posted, and its text
    ends with the [edit_url] of the upload response. *)
Theorem upload_success_notifies_once
    w e f out s' q qbody qd u ubody ud m url :
  run_main w e f = (out, s') ->
  q ∈ popen_calls (log s') ->
  is_upload_cmd q = false ->
  popen w q = Ok qbody ->
  json_loads w qbody = Some (VDict qd) ->
  qd !! "exists" = Some (VBool false) ->
  u ∈ popen_calls (log s') ->
  is_upload_cmd u = true ->
  popen w u = Ok ubody ->
  json_loads w ubody = Some (VDict ud) ->
  ud !! "type" = Some (VStr "success") ->
  ud !! "message" = Some (VStr m) ->
  ud !! "edit_url" = Some (VStr url) ->
  is_Some (e !! "slack_api_token") ->
  popen_calls (log s') = [q; u]
  /\ slack_calls (log s') = [VStr (slack_text +:+ url)].
Proof.
  intros Hrun Hq Hnu _ _ _ Hin Hiu Hp Hj Hty Hm Hurl [token Htok].
  split.
  { destruct (run_main_calls _ _ _ _ _ Hrun)
      as [Hc|(q' & Hq' & [Hc|(u' & Hu' & Hc)])]; rewrite Hc in Hq, Hin.
    - inversion Hin.
    - apply list_elem_of_singleton in Hin as ->. congruence.
    - apply elem_of_cons in Hq as [->|Hq];
        [|apply list_elem_of_singleton in Hq as ->; congruence].
      apply elem_of_cons in Hin as [->|Hin]; [congruence|].
      apply list_elem_of_singleton in Hin as ->. exact Hc. }
  destruct (run_main_upload _ _ _ _ _ _ Hrun Hin Hiu)
    as (_ & _ & _ & s2 & _ & _ & _ & _ & Q2 & Q3 & H).
  rewrite Hp, Hj in H. destruct H as (o2 & Hrep & ->).
  apply report_upload_inv in Hrep as (_ & _ & _ & _ & H).
  simpl in H. rewrite Hty in H. simpl in H.
  destruct (H m url) as [_ Hs].
  { rewrite Hm. reflexivity. }
  { rewrite Hurl. reflexivity. }
  rewrite Q3, Htok in Hs by discriminate.
  revert Hs. log_simpl. rewrite Q2. auto.
Qed.

(** A run in which the command of the query cannot be built reports
    that, and ends there. *)
Lemma config_error_run w e f out s' n v s1 x s2 :
  run_main w e f = (out, s') ->
  prepare w (mkState e f []) = (Val (n, v), s1) ->
  query_cmd n v s1 = (Raise x, s2) ->
  out = Val tt /\ log s' = log s1 ++ [EvOutput (VStr config_hint)].
Proof.
  intros Hrun Hprep Hq. unfold run_main in Hrun. apply main_inv in Hrun.
  rewrite Hprep in Hrun.
  apply registry_inv in Hrun as (o1 & s3 & Hc & Hrest).
  apply check_exists_calls in Hc as (_ & _ & _ & Hc). rewrite Hq in Hc.
  destruct Hc as [-> Hl]. destruct Hrest as [-> ->]. auto.
Qed.

(** C8, as the code has it. A run in which the command of the query cannot
    be built reports that and ends normally; a run whose query is answered
    by a body that is not JSON ends with the [ValueError] of [json.loads],
    which nothing catches: the query is the last thing the run does. *)
Theorem bad_registry_response w e f out s' :
  run_main w e f = (out, s') ->
  (forall n v s1 x s2,
     prepare w (mkState e f []) = (Val (n, v), s1) ->
     query_cmd n v s1 = (Raise x, s2) ->
     out = Val tt /\ log s' = log s1 ++ [EvOutput (VStr config_hint)])
  /\ (forall cmd body,
        cmd ∈ popen_calls (log s') ->
        is_upload_cmd cmd = false ->
        popen w cmd = Ok body ->
        json_loads w body = None ->
        out = Raise ValueError
        /\ popen_calls (log s') = [cmd]
        /\ last (log s') = Some (EvPopen cmd)).
Proof.
  intros Hrun. split.
  - intros n v s1 x s2. apply config_error_run. exact Hrun.
  - intros cmd body Hin Hnu Hp Hj.
    destruct (run_main_query _ _ _ _ _ _ Hrun Hin Hnu)
      as (n & v & s1 & _ & Q1 & _ & _ & H).
    rewrite Hp, Hj in H. destruct H as [-> ->]. simpl. log_simpl.
    rewrite Q1. repeat split; auto. apply last_snoc.
Qed.

(** C7. A Slack answer whose [ok] is false makes
    [send_slack_notification] raise a [TypeError], after the post and
    before anything is given to [self.output]: the line that should log
    the failure adds the answer, a dict, to a string. *)
Theorem slack_failure_raises w msg s token result okv :
  env s !! "slack_api_token" = Some token ->
  api_call w token "munkiserver-packages" msg = Ok result ->
  getitem result "ok" = Ok okv ->
  truthy okv = false ->
  send_slack_notification w msg s
  = (Raise TypeError,
     mkState (env s) (fs s)
       (log s ++ [EvSlack token "munkiserver-packages" msg])).
Proof.
  intros Htok Hcall Hok Hf. munfold. rewrite Htok. simpl.
  rewrite Hcall. simpl. rewrite Hok. simpl. rewrite Hf. simpl.
  destruct result; simpl in Hok; try discriminate. reflexivity.
Qed.

(** ** The pkginfo file *)

Lemma extend_if_set_state k flag args s o s' :
  extend_if_set k flag args s = (o, s') -> s' = s.
Proof.
  unfold extend_if_set. monad_unfold. simpl. intros H.
  destruct (truthy _); simpl in H; [|simplify_eq; reflexivity].
  destruct (env s !! k); simplify_eq; reflexivity.
Qed.

(** C9. When [make_pkg_info] returns, the record it has written back to
    the pkginfo file is the record [readPlist] parsed from the output of
    [makepkginfo] with only [name] and [version] changed, both to the
    result of the substitution: every other field is as parsed. *)
Theorem make_pkg_info_frame w pf s s' :
  make_pkg_info w pf s = (Val tt, s') ->
  exists args raw d d' n v path,
    tool_calls (log s') = tool_calls (log s) ++ [args]
    /\ subprocess_call w args = Ok raw
    /\ readPlist w raw = Ok (VDict d)
    /\ env s' !! "pkginfo_file" = Some (VStr path)
    /\ fs s' !! path = Some (writePlist w (VDict d')).1
    /\ (forall k, k <> "name" -> k <> "version" -> d' !! k = d !! k)
    /\ d !! "name" = Some (VStr n)
    /\ d !! "version" = Some (VStr v)
    /\ d' !! "name" = Some (VStr (sanitize n))
    /\ d' !! "version" = Some (VStr (sanitize v)).
Proof.
  intros H. unfold make_pkg_info in H. monad_unfold. simpl in H. mcases.
  repeat match goal with
  | E : extend_if_set _ _ _ _ = _ |- _ =>
      apply extend_if_set_state in E; subst
  end.
  rewrite lookup_insert_eq in *. simplify_eq.
  repeat match goal with
  | E : getitem ?r _ = Ok _ |- _ =>
      is_var r; destruct r; simpl in *; try discriminate
  | E : re_sub ?r = Ok _ |- _ =>
      is_var r; destruct r; simpl in *; try discriminate
  end.
  repeat case_match; simplify_eq.
  rewrite lookup_insert_ne in * by discriminate.
  repeat match goal with
  | E : <[_ := _]> _ !! _ = _ |- _ => rewrite lookup_insert_eq in E
  end.
  simplify_eq.
  match goal with
  | Hn : ?d !! "name" = Some (VStr ?n), Hv : ?d !! "version" = Some (VStr ?v),
    Hc : subprocess_call w ?args = Ok ?raw,
    Hp : env _ !! "package_file" = Some (VStr ?p) |- _ =>
      exists args, raw, d,
        (<["version" := VStr (sanitize v)]>
           (<["name" := VStr (sanitize n)]> d)),
        n, v, (p +:+ ".plist")
  end.
  log_simpl. rewrite lookup_insert_eq.
  repeat split; auto.
  - intros k N1 N2. rewrite !lookup_insert_ne by congruence. reflexivity.
  - rewrite lookup_insert_ne by discriminate. apply lookup_insert_eq.
  - apply lookup_insert_eq.
Qed.

(** [locate_package] writes no file, starts no tool, and assigns no key of
    [self.env] but [package_file]. *)
Lemma locate_package_inv s o s' :
  locate_package s = (o, s') ->
  fs s' = fs s
  /\ forall k, k <> "package_file" -> env s' !! k = env s !! k.
Proof.
  intros H. unfold locate_package in H. monad_unfold. simpl in H.
  mcases; split; auto; intros k N; apply lookup_insert_ne; congruence.
Qed.

(** With a pkginfo file given in [self.env], [prepare] reads the name and
    the version from that file as they are, and writes nothing. *)
Lemma prepare_given w e f path raw d n v o s1 :
  prepare w (mkState e f []) = (o, s1) ->
  e !! "pkginfo_file" = Some (VStr path) ->
  f !! path = Some raw ->
  readPlist w raw = Ok (VDict d) ->
  d !! "name" = Some (VStr n) ->
  d !! "version" = Some (VStr v) ->
  fs s1 = f
  /\ env s1 !! "pkginfo_file" = Some (VStr path)
  /\ match o with
     | Val (n', v') => n' = VStr n /\ v' = VStr v
     | _ => True
     end.
Proof.
  intros H He Hf Hr Hn Hv. unfold prepare, mbind, M_bind, bind in H.
  destruct (locate_package _) as [[[]| |x] s2] eqn:Hl;
    apply locate_package_inv in Hl as [Hfs Henv]; simpl in Hfs, Henv;
    specialize (Henv "pkginfo_file" ltac:(discriminate));
    rewrite He in Henv; [|simplify_eq; auto|simplify_eq; auto].
  unfold load_pkginfo in H. monad_unfold. simpl in H.
  repeat (progress (rewrite ?Henv, ?Hfs, ?Hf, ?Hr, ?Hn, ?Hv in H);
          simpl in H).
  simplify_eq. auto.
Qed.

(** The two calls to munkiserver write no file. *)
Lemma run_main_fs w e f out s' :
  run_main w e f = (out, s') ->
  fs s' = fs (prepare w (mkState e f [])).2.
Proof.
  intros Hrun. unfold run_main in Hrun. apply main_inv in Hrun.
  destruct (prepare w _) as [[[n v]| |x] s1]; simpl;
    [|destruct Hrun as [_ ->]; reflexivity
     |destruct Hrun as [_ ->]; reflexivity].
  apply registry_inv in Hrun as (o1 & s2 & Hc & Hrest).
  apply check_exists_calls in Hc as (_ & _ & Hf2 & _).
  destruct o1 as [[]| |x]; [|destruct Hrest as [_ ->]; exact Hf2
                            |destruct Hrest as [_ ->]; exact Hf2].
  destruct Hrest as (o2 & Hu & _).
  apply upload_package_calls in Hu as (_ & Hf3 & _). congruence.
Qed.

(** C10. In a run whose environment names a pkginfo file, the name and
    the version that [readPlist] finds in it go into the URL of the query
    as they are, whatever characters they hold; the upload sends that same
    file; and no file is written, so the file is as it was given. *)
Theorem given_pkginfo_used_verbatim w e f out s' path raw d n v cmd :
  run_main w e f = (out, s') ->
  e !! "pkginfo_file" = Some (VStr path) ->
  f !! path = Some raw ->
  readPlist w raw = Ok (VDict d) ->
  d !! "name" = Some (VStr n) ->
  d !! "version" = Some (VStr v) ->
  cmd ∈ popen_calls (log s') ->
  fs s' = f
  /\ exists a u curl key,
       e !! "api_url" = Some (VStr a)
       /\ e !! "unit" = Some (VStr u)
       /\ if is_upload_cmd cmd then
            exists pf,
              cmd = [curl; VStr "--header"; VStr ("X-Api-Key: " +:+ key);
                     VStr "-F"; VStr ("pkginfo_file=@" +:+ path);
                     VStr "-F"; VStr ("package_file=@" +:+ pf);
                     VStr "--url"; VStr (a +:+ "/" +:+ u +:+ "/packages")]
          else
            cmd = [curl; VStr "--header"; VStr ("X-Api-Key: " +:+ key);
                   VStr "--url";
                   VStr (a +:+ "/" +:+ u +:+ "/packages/" +:+ n
                         +:+ "/" +:+ v)].
Proof.
  intros Hrun He Hf Hr Hn Hv Hin.
  pose proof (quiet_prepare w (mkState e f [])) as (_ & _ & Q3).
  split.
  { rewrite (run_main_fs _ _ _ _ _ Hrun).
    destruct (prepare w _) as [o s1] eqn:Hprep.
    apply (prepare_given _ _ _ _ _ _ _ _ _ _ Hprep He Hf Hr Hn Hv). }
  destruct (is_upload_cmd cmd) eqn:Hup.
  - destruct (run_main_upload _ _ _ _ _ _ Hrun Hin Hup)
      as (n0 & v0 & s1 & s2 & Hprep & He2 & _ & Hu & _ & Q & _).
    destruct (prepare_given _ _ _ _ _ _ _ _ _ _ Hprep He Hf Hr Hn Hv)
      as (_ & Hpi & _).
    apply upload_cmd_inv in Hu as [_ Hu].
    destruct Hu as (a & u & curl & key & pi & pf & Ha & Hu & _ & _
                    & Hpi' & _ & ->).
    rewrite He2, Hpi in Hpi'. simplify_eq.
    rewrite Q in Ha, Hu by discriminate.
    exists a, u, curl, key. eauto.
  - destruct (run_main_query _ _ _ _ _ _ Hrun Hin Hup)
      as (n0 & v0 & s1 & Hprep & _ & _ & Hq & _).
    destruct (prepare_given _ _ _ _ _ _ _ _ _ _ Hprep He Hf Hr Hn Hv)
      as (_ & _ & Hnv & Hvv).
    rewrite Hprep in Q3. simpl in Q3.
    apply query_cmd_inv in Hq as [_ Hq].
    destruct Hq as (a & u & sn & sv & curl & key & Ha & Hu & ? & ? & _
                    & _ & ->).
    simplify_eq. rewrite Q3 in Ha, Hu by discriminate.
    exists a, u, curl, key. auto.
Qed.

(** ** The claims on runs against the stub world *)

(** The run against a registry that has the version: one query, no
    upload. *)
Lemma exists_true_no_upload_witness :
  (run_main world_exists stub_env stub_fs).1 = Val tt
  /\ popen_calls (log (run_main world_exists stub_env stub_fs).2)
     = [stub_query "Fire_fox" "115.0_beta_"]
  /\ upload_calls (log (run_main world_exists stub_env stub_fs).2) = [].
Proof.
  apply (exists_true_no_upload world_exists stub_env stub_fs
           (run_main world_exists stub_env stub_fs).1
           (run_main world_exists stub_env stub_fs).2
           (stub_query "Fire_fox" "115.0_beta_") body_exists_true
           {[ "exists" := VBool true ]}).
  - apply surjective_pairing.
  - apply list_elem_of_In. vm_compute. left. reflexivity.
  - vm_compute. reflexivity.
  - vm_compute. reflexivity.
  - vm_compute. reflexivity.
  - vm_compute. reflexivity.
Defined.

(** The run that makes its own pkginfo, uploads it and posts to Slack. *)
Lemma upload_success_notifies_once_witness :
  popen_calls (log (run_main world_upload_ok stub_env stub_fs).2)
  = [stub_query "Fire_fox" "115.0_beta_";
     stub_upload "/pkgs/Firefox.dmg.plist"]
  /\ slack_calls (log (run_main world_upload_ok stub_env stub_fs).2)
     = [VStr (slack_text +:+ "http://x")].
Proof.
  apply (upload_success_notifies_once world_upload_ok stub_env stub_fs
           (run_main world_upload_ok stub_env stub_fs).1
           (run_main world_upload_ok stub_env stub_fs).2
           (stub_query "Fire_fox" "115.0_beta_") body_exists_false
           {[ "exists" := VBool false ]}
           (stub_upload "/pkgs/Firefox.dmg.plist") body_upload_ok
           (<["type" := VStr "success"]>
              (<["message" := VStr "ok"]>
                 {[ "edit_url" := VStr "http://x" ]}))
           "ok" "http://x").
  - apply surjective_pairing.
  - apply list_elem_of_In. vm_compute. left. reflexivity.
  - vm_compute. reflexivity.
  - vm_compute. reflexivity.
  - vm_compute. reflexivity.
  - vm_compute. reflexivity.
  - apply list_elem_of_In. vm_compute. right. left. reflexivity.
  - vm_compute. reflexivity.
  - vm_compute. reflexivity.
  - vm_compute. reflexivity.
  - vm_compute. reflexivity.
  - vm_compute. reflexivity.
  - vm_compute. reflexivity.
  - exists (VStr "xoxb-1"). vm_compute. reflexivity.
Defined.

(** The run whose upload munkiserver refuses. *)
Lemma upload_failure_reported_witness :
  slack_calls (log (run_main world_upload_bad stub_env_given stub_fs).2) = []
  /\ (run_main world_upload_bad stub_env_given stub_fs).1 = Val tt
  /\ last (log (run_main world_upload_bad stub_env_given stub_fs).2)
     = Some (EvOutput (VStr "Upload failed: bad")).
Proof.
  destruct (upload_failure_reported world_upload_bad stub_env_given stub_fs
              (run_main world_upload_bad stub_env_given stub_fs).1
              (run_main world_upload_bad stub_env_given stub_fs).2
              (stub_upload given_pkginfo_path) body_upload_bad
              (VDict (<["type" := VStr "error"]>
                        {[ "message" := VStr "bad" ]}))
              (VStr "error")) as [Hs Hm].
  - apply surjective_pairing.
  - apply list_elem_of_In. vm_compute. right. left. reflexivity.
  - vm_compute. reflexivity.
  - vm_compute. reflexivity.
  - vm_compute. reflexivity.
  - vm_compute. reflexivity.
  - vm_compute. reflexivity.
  - split; [exact Hs|]. apply (Hm "bad"). vm_compute. reflexivity.
Defined.

(** C3, as the claim has it, fails: with no [api_url] in the environment
    and no package file on the disk, the run says that the package file is
    not found and never reports the configuration error. *)
Lemma config_error_not_reported :
  absent env_no_api_url "api_url"
  /\ (run_main world_upload_ok env_no_api_url ∅).1 = Val tt
  /\ outputs (log (run_main world_upload_ok env_no_api_url ∅).2)
     = [VStr "package_file path:  /pkgs/Firefox.dmg";
        VStr "Package file not found"]
  /\ ~ reports_config_error
         (log (run_main world_upload_ok env_no_api_url ∅).2).
Proof.
  split; [left; vm_compute; reflexivity|].
  split; [vm_compute; reflexivity|].
  split; [vm_compute; reflexivity|].
  unfold reports_config_error. intros H. apply list_elem_of_In in H.
  vm_compute in H. destruct H as [H|[H|[]]]; discriminate H.
Qed.

(** C8, as the claim has it, fails: when munkiserver answers the query
    with a page that is not JSON, the run ends with the [ValueError] of
    [json.loads] and has reported nothing. *)
Lemma bad_json_not_handled :
  popen_calls (log (run_main world_bad_gateway stub_env_given stub_fs).2)
  = [stub_query raw_name raw_version]
  /\ popen world_bad_gateway (stub_query raw_name raw_version)
     = Ok body_not_json
  /\ json_loads world_bad_gateway body_not_json = None
  /\ (run_main world_bad_gateway stub_env_given stub_fs).1
     = Raise ValueError
  /\ outputs (log (run_main world_bad_gateway stub_env_given stub_fs).2)
     = [].
Proof. repeat split; vm_compute; reflexivity. Qed.

(** The run with no [api_key], and the run against a registry that
    answers with a page that is not JSON. *)
Lemma bad_registry_response_witness :
  ((run_main world_upload_ok env_given_no_api_key stub_fs).1 = Val tt
   /\ log (run_main world_upload_ok env_given_no_api_key stub_fs).2
      = [EvOutput (VStr config_hint)])
  /\ ((run_main world_bad_gateway stub_env_given stub_fs).1
      = Raise ValueError
      /\ popen_calls
           (log (run_main world_bad_gateway stub_env_given stub_fs).2)
         = [stub_query raw_name raw_version]
      /\ last (log (run_main world_bad_gateway stub_env_given stub_fs).2)
         = Some (EvPopen (stub_query raw_name raw_version))).
Proof.
  split.
  - apply (proj1 (bad_registry_response world_upload_ok
                    env_given_no_api_key stub_fs
                    (run_main world_upload_ok env_given_no_api_key
                       stub_fs).1
                    (run_main world_upload_ok env_given_no_api_key
                       stub_fs).2
                    (surjective_pairing _))
             (VStr raw_name) (VStr raw_version)
             (mkState env_given_no_api_key stub_fs []) TypeError
             (mkState env_given_no_api_key stub_fs []));
      vm_compute; reflexivity.
  - apply (proj2 (bad_registry_response world_bad_gateway
                    stub_env_given stub_fs
                    (run_main world_bad_gateway stub_env_given stub_fs).1
                    (run_main world_bad_gateway stub_env_given stub_fs).2
                    (surjective_pairing _))
             (stub_query raw_name raw_version) body_not_json).
    + apply list_elem_of_In. vm_compute. left. reflexivity.
    + vm_compute. reflexivity.
    + vm_compute. reflexivity.
    + vm_compute. reflexivity.
Defined.

(** The post that Slack refuses. *)
Lemma slack_failure_raises_witness :
  send_slack_notification world_slack_down (VStr "text")
    (mkState stub_env stub_fs [])
  = (Raise TypeError,
     mkState stub_env stub_fs
       [EvSlack (VStr "xoxb-1") "munkiserver-packages" (VStr "text")]).
Proof.
  apply (slack_failure_raises world_slack_down (VStr "text")
           (mkState stub_env stub_fs []) (VStr "xoxb-1") slack_failed
           (VBool false)).
  - vm_compute. reflexivity.
  - vm_compute. reflexivity.
  - vm_compute. reflexivity.
  - vm_compute. reflexivity.
Defined.

(** The run in which the upload succeeds and Slack refuses the post ends
    with that [TypeError], after the upload has been reported. *)
Example failed_notification_ends_run_in_error :
  (run_main world_slack_down stub_env_given stub_fs).1 = Raise TypeError
  /\ outputs (log (run_main world_slack_down stub_env_given stub_fs).2)
     = [VStr "Upload succeeded: ok"; VStr "URL: http://x"].
Proof. split; vm_compute; reflexivity. Qed.

(** [make_pkg_info] on the stub disk. *)
Lemma make_pkg_info_frame_witness :
  exists args raw d d' n v path,
    tool_calls
      (log (make_pkg_info world_upload_ok (VStr pkg_path)
              (mkState stub_env stub_fs [])).2)
    = tool_calls [] ++ [args]
    /\ subprocess_call world_upload_ok args = Ok raw
    /\ readPlist world_upload_ok raw = Ok (VDict d)
    /\ env (make_pkg_info world_upload_ok (VStr pkg_path)
              (mkState stub_env stub_fs [])).2 !! "pkginfo_file"
       = Some (VStr path)
    /\ fs (make_pkg_info world_upload_ok (VStr pkg_path)
             (mkState stub_env stub_fs [])).2 !! path
       = Some (writePlist world_upload_ok (VDict d')).1
    /\ (forall k, k <> "name" -> k <> "version" -> d' !! k = d !! k)
    /\ d !! "name" = Some (VStr n)
    /\ d !! "version" = Some (VStr v)
    /\ d' !! "name" = Some (VStr (sanitize n))
    /\ d' !! "version" = Some (VStr (sanitize v)).
Proof.
  apply (make_pkg_info_frame world_upload_ok (VStr pkg_path)
           (mkState stub_env stub_fs [])
           (make_pkg_info world_upload_ok (VStr pkg_path)
              (mkState stub_env stub_fs [])).2).
  vm_compute. reflexivity.
Defined.

(** What that run of [make_pkg_info] leaves in the file. *)
Example make_pkg_info_writes_clean_names :
  fs (make_pkg_info world_upload_ok (VStr pkg_path)
        (mkState stub_env stub_fs [])).2 !! "/pkgs/Firefox.dmg.plist"
  = Some (pkginfo_text "Fire_fox" "115.0_beta_").
Proof. vm_compute. reflexivity. Qed.

(** The run with a pkginfo file of its own, whose name and version have
    blanks and brackets. *)
Lemma given_pkginfo_used_verbatim_witness :
  fs (run_main world_upload_ok stub_env_given stub_fs).2 = stub_fs
  /\ exists a u curl key,
       stub_env_given !! "api_url" = Some (VStr a)
       /\ stub_env_given !! "unit" = Some (VStr u)
       /\ stub_query raw_name raw_version
          = [curl; VStr "--header"; VStr ("X-Api-Key: " +:+ key);
             VStr "--url";
             VStr (a +:+ "/" +:+ u +:+ "/packages/" +:+ raw_name
                   +:+ "/" +:+ raw_version)].
Proof.
  apply (given_pkginfo_used_verbatim world_upload_ok stub_env_given stub_fs
           (run_main world_upload_ok stub_env_given stub_fs).1
           (run_main world_upload_ok stub_env_given stub_fs).2
           given_pkginfo_path (pkginfo_text raw_name raw_version)
           (<["name" := VStr raw_name]>
              (<["version" := VStr raw_version]>
                 {[ "catalogs" := VList [VStr "testing"] ]}))
           raw_name raw_version (stub_query raw_name raw_version)).
  - apply surjective_pairing.
  - vm_compute. reflexivity.
  - vm_compute. reflexivity.
  - vm_compute. reflexivity.
  - vm_compute. reflexivity.
  - vm_compute. reflexivity.
  - apply list_elem_of_In. vm_compute. left. reflexivity.
Defined.

(** The name given in that run has characters the substitution would
    replace, and they are in the URL of the query. *)
Example given_name_is_not_clean :
  sanitize raw_name <> raw_name
  /\ popen_calls (log (run_main world_upload_ok stub_env_given stub_fs).2)
     = [stub_query "Fire fox" "115.0 (beta)";
        stub_upload given_pkginfo_path].
Proof. split; [vm_compute; discriminate|vm_compute; reflexivity]. Qed.

(** ** The substitution on examples *)

Example sanitize_runs : sanitize "a  b_c!!d.-9Z" = "a_b_c_d.-9Z".
Proof. reflexivity. Qed.

Example sanitize_version : sanitize "115.0 (beta)" = "115.0_beta_".
Proof. reflexivity. Qed.

(** * More about the code *)

(** ** More about the substitution *)

Lemma sub_scan_collapsed s :
  (forall b, runs_collapsed false (sub_scan b s) = true)
  /\ runs_collapsed true (sub_scan true s) = true.
Proof.
  induction s as [|c r [IH1 IH2]]; [split; [intros b|]; reflexivity|].
  split.
  - intros b. simpl. destruct (allowed c) eqn:Hc.
    + simpl. rewrite Hc. apply IH1.
    + destruct b; [apply IH1|]. simpl. exact IH2.
  - simpl. destruct (allowed c) eqn:Hc; [|exact IH2].
    simpl. rewrite Hc. apply IH1.
Qed.

Lemma sub_scan_length b s :
  String.length (sub_scan b s) <= String.length s.
Proof.
  revert b. induction s as [|c r IH]; intros b; simpl; [lia|].
  destruct (allowed c); simpl; [specialize (IH false); lia|].
  destruct b; simpl; specialize (IH true); lia.
Qed.

Lemma sub_scan_forallb_clean b s :
  forallb clean_char (chars (sub_scan b s)) = true.
Proof.
  revert b. induction s as [|c r IH]; intros b; simpl; [reflexivity|].
  destruct (allowed c) eqn:Hc; simpl.
  - unfold clean_char at 1. rewrite Hc. simpl. apply IH.
  - destruct b; [apply IH|]. simpl. apply IH.
Qed.

Lemma sub_scan_stable s :
  (runs_collapsed false s = true ->
   forallb clean_char (chars s) = true -> sub_scan false s = s)
  /\ (runs_collapsed true s = true ->
      forallb clean_char (chars s) = true -> sub_scan true s = s).
Proof.
  induction s as [|c r [IH1 IH2]]; [split; reflexivity|].
  simpl. destruct (allowed c) eqn:Hc.
  - unfold clean_char at 1 3. rewrite Hc. simpl.
    split; intros Hr Hf; rewrite IH1 by assumption; reflexivity.
  - unfold clean_char at 1 3. rewrite Hc. simpl. split.
    + intros Hr Hf. apply andb_true_iff in Hf as [Hu Hf].
      apply Ascii.eqb_eq in Hu as ->. rewrite IH2 by assumption.
      reflexivity.
    + intros Hr. discriminate Hr.
Qed.

(** X1. The substitution replaces a whole run of characters outside the
    class by one [_]: in its result no two characters outside the class
    stand side by side, so it never writes two [_] in a row. *)
Theorem sanitize_collapses_runs (s : string) :
  runs_collapsed false (sanitize s) = true.
Proof. apply (proj1 (sub_scan_collapsed s)). Qed.

(** X2. The substitution keeps every character of the class, in order and
    with nothing of the class added, and its result is never longer than
    its input. *)
Theorem sanitize_keeps_class_chars (s : string) :
  List.filter allowed (chars (sanitize s)) = List.filter allowed (chars s)
  /\ String.length (sanitize s) <= String.length s.
Proof. split; [apply sub_scan_keeps_class|apply sub_scan_length]. Qed.

(** X3. The strings the substitution leaves as they are, are those made
    of characters of the class and of single [_] that do not touch. *)
Theorem sanitize_fixed_points (s : string) :
  sanitize s = s <-> stable s = true.
Proof.
  unfold stable, sanitize. split.
  - intros <-. apply andb_true_iff. split.
    + apply (proj1 (sub_scan_collapsed s)).
    + apply sub_scan_forallb_clean.
  - intros [Hr Hf]%andb_true_iff. apply (proj1 (sub_scan_stable s)); auto.
Qed.

(** ** Calm computations *)

Section Calm.
Context {A B : Type}.

Lemma calm_ret (a : A) : calm (mret a).
Proof. intros s. simpl. auto. Qed.

Lemma calm_raise e : calm (raise e : M A).
Proof. intros s. simpl. auto. Qed.

Lemma calm_return : calm (return_ : M A).
Proof. intros s. simpl. auto. Qed.

Lemma calm_lift (r : exc A) : calm (lift r).
Proof. destruct r; intros s; simpl; auto. Qed.

Lemma calm_bind (m : M A) (k : A -> M B) :
  calm m -> (forall a, calm (k a)) -> calm (m ≫= k).
Proof.
  intros Hm Hk s. specialize (Hm s).
  unfold mbind, M_bind, bind.
  destruct (m s) as [[a| |e] s1]; simpl in *; [|exact Hm|exact Hm].
  destruct Hm as (H1 & H2 & H3), (Hk a s1) as (K1 & K2 & K3).
  repeat split; congruence.
Qed.

Lemma calm_try_except (body handler : M A) :
  calm body -> calm handler -> calm (try_except body handler).
Proof.
  intros Hb Hh s. specialize (Hb s). unfold try_except.
  destruct (body s) as [[a| |e] s1]; simpl in *; [exact Hb|exact Hb|].
  destruct Hb as (H1 & H2 & H3), (Hh s1) as (K1 & K2 & K3).
  repeat split; congruence.
Qed.
End Calm.

Lemma calm_fn_body m : calm m -> calm (fn_body m).
Proof.
  intros Hm s. specialize (Hm s). unfold fn_body.
  destruct (m s) as [[a| |e] s1]; exact Hm.
Qed.

Lemma calm_env_getitem k : calm (env_getitem k).
Proof. intros s. unfold env_getitem. destruct (env s !! k); simpl; auto. Qed.

Lemma calm_output msg : calm (output msg).
Proof. intros s. simpl. log_simpl. auto. Qed.

Lemma calm_popen_event cmd : calm (emit (EvPopen cmd)).
Proof. intros s. simpl. log_simpl. auto. Qed.

Lemma calm_slack_event token chan text : calm (emit (EvSlack token chan text)).
Proof. intros s. simpl. log_simpl. auto. Qed.

Lemma calm_when b (m : M unit) : calm m -> calm (when_ b m).
Proof. intros Hm. destruct b; simpl; [exact Hm|apply (@calm_ret unit)]. Qed.

Create HintDb calm_db.
#[local] Hint Resolve calm_env_getitem calm_output calm_popen_event
  calm_slack_event : calm_db.

Ltac calm_steps :=
  repeat first
    [ apply calm_bind; [|intros ?]
    | apply calm_try_except
    | apply calm_fn_body
    | apply calm_when
    | apply calm_ret
    | apply calm_return
    | apply calm_raise
    | apply calm_lift
    | solve [auto with calm_db]
    | match goal with
      | |- calm (if ?b then _ else _) => destruct b
      | |- calm (match ?x with _ => _ end) => destruct x
      end ].

Lemma calm_check_exists w n v : calm (check_exists w n v).
Proof.
  unfold check_exists, query_cmd, curl_json, quit_if_exists. calm_steps.
Qed.

Lemma calm_send_slack_notification w msg :
  calm (send_slack_notification w msg).
Proof. unfold send_slack_notification. calm_steps. Qed.

Lemma calm_upload_package w : calm (upload_package w).
Proof.
  unfold upload_package, upload_cmd, curl_json, report_upload.
  pose proof calm_send_slack_notification. calm_steps.
Qed.

(** After [prepare], a run starts no tool, writes no file and assigns
    nothing in [self.env]. *)
Lemma run_main_after_prepare w e f out s' :
  run_main w e f = (out, s') ->
  env s' = env (prepare w (mkState e f [])).2
  /\ fs s' = fs (prepare w (mkState e f [])).2
  /\ tool_calls (log s') = tool_calls (log (prepare w (mkState e f [])).2).
Proof.
  intros Hrun. unfold run_main in Hrun. apply main_inv in Hrun.
  destruct (prepare w _) as [[[n v]| |x] s1]; simpl;
    [|destruct Hrun as [_ ->]; auto|destruct Hrun as [_ ->]; auto].
  assert (calm (fn_body (check_exists w n v;; upload_package w;; return_)))
    as Hc.
  { pose proof calm_check_exists. pose proof calm_upload_package.
    calm_steps. }
  specialize (Hc s1). rewrite Hrun in Hc. exact Hc.
Qed.

(** ** The package file and the pkginfo file *)

(** Lines 81 to 87 read [self.env] and never raise: a value that is true
    is there. *)
Lemma extend_if_set_val k flag args s o s' :
  extend_if_set k flag args s = (o, s') ->
  s' = s /\ o = Val (args ++ optional_arg (env s) k flag).
Proof.
  unfold extend_if_set, optional_arg. monad_unfold. simpl. intros H.
  destruct (env s !! k) as [v|] eqn:E; simpl in H.
  - destruct (truthy v); simpl in H; rewrite ?E in H; simplify_eq;
      rewrite ?app_nil_r; auto.
  - simplify_eq. rewrite app_nil_r. auto.
Qed.

Lemma insert_changes {V} (e : gmap string V) k0 v k :
  <[k0 := v]> e !! k <> e !! k -> k = k0 /\ <[k0 := v]> e !! k = Some v.
Proof.
  intros H. destruct (decide (k = k0)) as [->|Hne].
  - split; [reflexivity|apply lookup_insert_eq].
  - rewrite lookup_insert_ne in H by congruence. contradiction.
Qed.

(** What [locate_package] does, by its outcome. *)
Lemma locate_package_cases s o s' :
  locate_package s = (o, s') ->
  fs s' = fs s
  /\ tool_calls (log s') = tool_calls (log s)
  /\ (forall k, env s' !! k <> env s !! k ->
        k = "package_file"
        /\ env s' !! k = env s !! "pathname"
        /\ exists v0, env s !! "package_file" = Some v0 /\ truthy v0 = false)
  /\ match o with
     | Val _ =>
         log s' = log s
         /\ exists pkg, env s' !! "package_file" = Some (VStr pkg)
                        /\ is_Some (fs s !! pkg)
     | Return =>
         last (log s')
         = Some (EvOutput (VStr "No package file pathname provided"))
         \/ last (log s') = Some (EvOutput (VStr "Package file not found"))
     | Raise _ => log s' = log s
     end.
Proof.
  intros H. unfold locate_package in H. monad_unfold. simpl in H.
  mcases; log_simpl;
    (split; [reflexivity|split; [reflexivity|split]]).
  all: try (intros k Hk; exfalso; apply Hk; reflexivity).
  all: try (intros k Hk;
            apply insert_changes in Hk as [-> Hk]; rewrite Hk;
            split; [reflexivity|]; split; [congruence|];
            eexists; split; [reflexivity|];
            apply negb_true_iff; assumption).
  all: try (rewrite last_snoc; auto; fail).
  all: try (rewrite <- app_assoc, last_snoc; auto; fail).
  all: try reflexivity.
  all: repeat match goal with
       | E : <[_ := _]> _ !! _ = _ |- _ => rewrite lookup_insert_eq in E
       end; simplify_eq.
  all: split; [reflexivity|]; eexists;
    (split; [rewrite ?lookup_insert_eq; eauto|]).
  all: match goal with
       | E : negb (bool_decide _) = false |- _ =>
           apply negb_false_iff, bool_decide_eq_true in E; exact E
       end.
Qed.

Lemma makepkginfo_args_eq e pkg :
  ((VStr "/usr/local/munki/makepkginfo"
    :: VStr pkg :: optional_arg e "pkginfo_name" "--name")
   ++ optional_arg e "pkginfo_displayname" "--displayname")
  ++ optional_arg e "pkginfo_destinationpath" "--destinationpath"
  = makepkginfo_args e pkg.
Proof. unfold makepkginfo_args. simpl. rewrite <- app_assoc. reflexivity. Qed.

(** What [make_pkg_info] does for the package [pkg], by its outcome. *)
Lemma make_pkg_info_cases w pf0 s o s' pkg :
  make_pkg_info w pf0 s = (o, s') ->
  env s !! "package_file" = Some (VStr pkg) ->
  (forall p, p <> pkg +:+ ".plist" -> fs s' !! p = fs s !! p)
  /\ env s' = <["pkginfo_file" := VStr (pkg +:+ ".plist")]> (env s)
  /\ match o with
     | Return => False
     | Val _ =>
         log s' = log s ++
           [EvOutput (VStr ("No pkginfo file specified.  Creating "
                            +:+ pkg +:+ ".plist"));
            EvCall (makepkginfo_args (env s) pkg)]
         /\ exists raw d n v,
              subprocess_call w (makepkginfo_args (env s) pkg) = Ok raw
              /\ readPlist w raw = Ok (VDict d)
              /\ d !! "name" = Some (VStr n)
              /\ d !! "version" = Some (VStr v)
              /\ fs s' !! (pkg +:+ ".plist")
                 = Some (writePlist w
                           (VDict (<["version" := VStr (sanitize v)]>
                                     (<["name" := VStr (sanitize n)]> d)))).1
     | Raise x =>
         (can_write w (pkg +:+ ".plist") = false
          /\ x = IOError /\ fs s' = fs s /\ log s' = log s)
         \/ (can_write w (pkg +:+ ".plist") = true
             /\ tool_calls (log s')
                = tool_calls (log s) ++ [makepkginfo_args (env s) pkg]
             /\ match subprocess_call w (makepkginfo_args (env s) pkg) with
                | Err x' => x = x' /\ fs s' !! (pkg +:+ ".plist") = Some ""
                | Ok _ => is_Some (fs s' !! (pkg +:+ ".plist"))
                end)
     end.
Proof.
  intros H Hpkg. unfold make_pkg_info in H. monad_unfold. simpl in H.
  mcases.
  all: repeat match goal with
       | E : extend_if_set _ _ _ _ = _ |- _ =>
           apply extend_if_set_val in E as [? ?]; subst
       end; simplify_eq.
  all: repeat match goal with
       | E : <[_ := _]> _ !! _ = _ |- _ => rewrite lookup_insert_eq in E
       end; simplify_eq.
  all: rewrite ?makepkginfo_args_eq in *; simplify_eq.
  all: try congruence.
  all: split;
    [intros p Hp; rewrite ?lookup_insert_ne by congruence; reflexivity|].
  all: split; [reflexivity|].
  all: try (left; repeat split; auto; fail).
  all: try (right; split; [assumption|]; split; [log_simpl; reflexivity|];
            rewrite ?lookup_insert_eq; repeat split; eauto; congruence).
  all: try contradiction.
  all: split; [rewrite <- app_assoc; reflexivity|].
  all: repeat match goal with
       | E : getitem ?r _ = Ok _ |- _ =>
           is_var r; destruct r; simpl in *; try discriminate
       | E : re_sub ?r = Ok _ |- _ =>
           is_var r; destruct r; simpl in *; try discriminate
       end.
  all: repeat case_match; simplify_eq.
  all: rewrite lookup_insert_ne in * by discriminate; simplify_eq.
  all: match goal with
       | Hn : ?d !! "name" = Some (VStr ?n),
         Hv : ?d !! "version" = Some (VStr ?v),
         Hc : subprocess_call _ _ = Ok ?raw |- _ => exists raw, d, n, v
       end; rewrite lookup_insert_eq; repeat split; auto.
Qed.

Lemma not_found_None {V} (o : option V) :
  negb (bool_decide (is_Some o)) = true -> o = None.
Proof.
  intros H. apply negb_true_iff, bool_decide_eq_false in H.
  destruct o; [exfalso; apply H; eauto|reflexivity].
Qed.

(** What [load_pkginfo] does for the package [pkg], by whether a pkginfo
    file is given and by its outcome. *)
Lemma load_pkginfo_cases w s o s' pkg :
  load_pkginfo w s = (o, s') ->
  env s !! "package_file" = Some (VStr pkg) ->
  match env s !! "pkginfo_file" with
  | Some pi0 =>
      env s' = env s /\ fs s' = fs s
      /\ tool_calls (log s') = tool_calls (log s)
      /\ match o with
         | Return =>
             (exists pi, pi0 = VStr pi /\ fs s !! pi = None)
             /\ log s' = log s ++
                  [EvOutput (VStr "pkginfo file specified but not found")]
         | Val (n, v) =>
             log s' = log s
             /\ exists pi raw plist,
                  pi0 = VStr pi /\ fs s !! pi = Some raw
                  /\ readPlist w raw = Ok plist
                  /\ getitem plist "name" = Ok n
                  /\ getitem plist "version" = Ok v
         | Raise _ => log s' = log s
         end
  | None =>
      (forall p, p <> pkg +:+ ".plist" -> fs s' !! p = fs s !! p)
      /\ env s' = <["pkginfo_file" := VStr (pkg +:+ ".plist")]> (env s)
      /\ match o with
         | Return => False
         | Val (n, v) =>
             tool_calls (log s')
             = tool_calls (log s) ++ [makepkginfo_args (env s) pkg]
             /\ exists raw d n0 v0 plist,
                  subprocess_call w (makepkginfo_args (env s) pkg) = Ok raw
                  /\ readPlist w raw = Ok (VDict d)
                  /\ d !! "name" = Some (VStr n0)
                  /\ d !! "version" = Some (VStr v0)
                  /\ fs s' !! (pkg +:+ ".plist")
                     = Some (writePlist w
                               (VDict (<["version" := VStr (sanitize v0)]>
                                         (<["name" := VStr (sanitize n0)]>
                                            d)))).1
                  /\ readPlist w
                       (writePlist w
                          (VDict (<["version" := VStr (sanitize v0)]>
                                    (<["name" := VStr (sanitize n0)]> d)))).1
                     = Ok plist
                  /\ getitem plist "name" = Ok n
                  /\ getitem plist "version" = Ok v
         | Raise x =>
             (can_write w (pkg +:+ ".plist") = false
              /\ fs s' = fs s /\ tool_calls (log s') = tool_calls (log s))
             \/ (tool_calls (log s')
                 = tool_calls (log s) ++ [makepkginfo_args (env s) pkg]
                 /\ match subprocess_call w (makepkginfo_args (env s) pkg)
                    with
                    | Err x' =>
                        x = x' /\ fs s' !! (pkg +:+ ".plist") = Some ""
                    | Ok _ => is_Some (fs s' !! (pkg +:+ ".plist"))
                    end)
         end
  end.
Proof.
  intros H Hpkg. unfold load_pkginfo in H. monad_unfold. simpl in H.
  destruct (env s !! "pkginfo_file") as [pi0|] eqn:Hpi; simpl in H.
  - mcases; log_simpl; repeat split; eauto 10.
    eexists. split; [reflexivity|]. apply not_found_None. assumption.
  - rewrite Hpkg in H. simpl in H.
    destruct (make_pkg_info w (VStr pkg) s) as [[[]| |x] s2] eqn:Hm;
      apply (make_pkg_info_cases _ _ _ _ _ pkg) in Hm as (Hfs & Henv & Hm);
      try exact Hpkg; [|contradiction|].
    + destruct Hm as (Hlog & raw & d & n0 & v0 & Hc & Hr & Hn & Hv & Hw).
      rewrite Henv, lookup_insert_eq in H. rewrite Hw in H.
      mcases; (split; [exact Hfs|]); (split; [exact Henv|]).
      * split; [rewrite Hlog; log_simpl; reflexivity|].
        exists raw, d, n0, v0. eexists. repeat split; eauto.
      * right. split; [rewrite Hlog; log_simpl; reflexivity|].
        rewrite Hw. eauto.
      * right. split; [rewrite Hlog; log_simpl; reflexivity|].
        rewrite Hw. eauto.
      * right. split; [rewrite Hlog; log_simpl; reflexivity|].
        rewrite Hw. eauto.
    + simplify_eq. split; [exact Hfs|]. split; [exact Henv|].
      destruct Hm as [(Hcw & _ & Hf & Hl)|(_ & Ht & Hm)].
      * left. rewrite Hl. auto.
      * right. auto.
Qed.

(** [prepare] is [locate_package], followed when it finds the package by
    [load_pkginfo]. *)
Lemma prepare_inv w s o s1 :
  prepare w s = (o, s1) ->
  exists o0 s0,
    locate_package s = (o0, s0)
    /\ match o0 with
       | Val _ => load_pkginfo w s0 = (o, s1)
       | Return => o = Return /\ s1 = s0
       | Raise x => o = Raise x /\ s1 = s0
       end.
Proof.
  unfold prepare, mbind, M_bind, bind. intros H.
  destruct (locate_package s) as [[[]| |x] s0]; simplify_eq;
    [exists (Val tt)|exists Return|exists (Raise x)]; eauto.
Qed.

(** When [prepare] yields a name and a version: the package is a file
    that was there at the start, the pkginfo is a file that is there now,
    and the name and the version are what [readPlist] finds in it. *)
Lemma prepare_val w e f n v s1 :
  prepare w (mkState e f []) = (Val (n, v), s1) ->
  exists pkg pi raw plist,
    env s1 !! "package_file" = Some (VStr pkg)
    /\ is_Some (f !! pkg)
    /\ env s1 !! "pkginfo_file" = Some (VStr pi)
    /\ fs s1 !! pi = Some raw
    /\ readPlist w raw = Ok plist
    /\ getitem plist "name" = Ok n
    /\ getitem plist "version" = Ok v.
Proof.
  intros H. apply prepare_inv in H as (o0 & s0 & Hloc & Hload).
  apply locate_package_cases in Hloc as (Hfs0 & _ & _ & Hloc).
  simpl in *.
  destruct o0 as [[]| |x]; [|destruct Hload; discriminate
                            |destruct Hload; discriminate].
  destruct Hloc as (_ & pkg & Hpkg & Hex).
  apply (load_pkginfo_cases _ _ _ _ pkg) in Hload; [|exact Hpkg].
  destruct (env s0 !! "pkginfo_file") as [pi0|] eqn:Hpi.
  - destruct Hload as (He & Hf & _ & _ & pi & raw & plist & -> & Hraw
                       & Hr & Hn & Hv).
    exists pkg, pi, raw, plist. rewrite He, Hf. repeat split; auto.
  - destruct Hload as (_ & He & _ & raw & d & n0 & v0 & plist & _ & _ & _
                       & _ & Hw & Hr & Hn & Hv).
    exists pkg, (pkg +:+ ".plist"). do 2 eexists. rewrite He.
    rewrite lookup_insert_ne by discriminate. rewrite lookup_insert_eq.
    repeat split; eauto.
Qed.

(** Once the command of the query has been built, the command of the
    upload can be built too. *)
Lemma upload_cmd_ready n v s q s2 pkg pi :
  query_cmd n v s = (Val q, s) ->
  env s !! "package_file" = Some (VStr pkg) ->
  env s !! "pkginfo_file" = Some (VStr pi) ->
  env s2 = env s ->
  exists u, upload_cmd s2 = (Val u, s2).
Proof.
  intros Hq Hpkg Hpi He. apply query_cmd_inv in Hq as [_ Hq].
  destruct Hq as (a & u & sn & sv & curl & key & Ha & Hu & _ & _ & Hc
                  & Hk & _).
  unfold upload_cmd. monad_unfold. simpl.
  rewrite He, Ha. simpl. rewrite He, Hu. simpl. rewrite He, Hc. simpl.
  rewrite He, Hk. simpl. rewrite He, Hpi. simpl. rewrite He, Hpkg. simpl.
  eauto.
Qed.

(** ** More about the two calls to munkiserver *)

(** X4. Whatever the environment, the files and the world, a run calls
    munkiserver not at all, or once with the query, or twice with the
    query and then the multipart POST: it never uploads without having
    asked first, and never asks or uploads twice. *)
Theorem run_calls_shape w e f :
  popen_calls (log (run_main w e f).2) = []
  \/ exists q,
       is_upload_cmd q = false
       /\ (popen_calls (log (run_main w e f).2) = [q]
           \/ exists u, is_upload_cmd u = true
                        /\ popen_calls (log (run_main w e f).2) = [q; u]).
Proof.
  apply (run_main_calls w e f (run_main w e f).1). apply surjective_pairing.
Qed.

(** X5. The test of line 152 is the truth value of [exists], not a
    comparison with [true]: any answer whose [exists] is true as Python
    has it (a non-empty string, a number that is not zero) ends the run
    there, normally, and the last line of the run names the name and the
    version that stand in the URL of the query. *)
Theorem exists_truthy_quits w e f out s' cmd body r t :
  run_main w e f = (out, s') ->
  cmd ∈ popen_calls (log s') ->
  is_upload_cmd cmd = false ->
  popen w cmd = Ok body ->
  json_loads w body = Some r ->
  getitem r "exists" = Ok t ->
  truthy t = true ->
  out = Val tt
  /\ popen_calls (log s') = [cmd]
  /\ exists n v a u curl key,
       cmd = [curl; VStr "--header"; VStr ("X-Api-Key: " +:+ key);
              VStr "--url";
              VStr (a +:+ "/" +:+ u +:+ "/packages/" +:+ n +:+ "/" +:+ v)]
       /\ last (log s')
          = Some (EvOutput
                    (VStr (n +:+ " version " +:+ v +:+
                           " is already in munkiserver.  Quitting."))).
Proof.
  intros Hrun Hin Hnu Hp Hj Hex Ht.
  destruct (run_main_query _ _ _ _ _ _ Hrun Hin Hnu)
    as (n & v & s1 & _ & Q1 & _ & Hq & H).
  rewrite Hp, Hj in H. destruct H as (o1 & s2 & Hquit & Hrest).
  apply quit_if_exists_inv in Hquit as (_ & _ & Hcalls & _ & Ho).
  revert Hcalls. simpl. log_simpl. rewrite Q1. simpl. intros Hcalls.
  destruct o1 as [[]| |x].
  - destruct Ho as (_ & t' & Ht' & Hf). congruence.
  - destruct Hrest as [-> ->].
    destruct Ho as (_ & sn & sv & Hn & Hv & Hl). simplify_eq.
    split; [reflexivity|]. split; [exact Hcalls|].
    apply query_cmd_inv in Hq as [_ Hq].
    destruct Hq as (a & u & sn' & sv' & curl & key & _ & _ & ? & ? & _
                    & _ & ->). simplify_eq.
    exists sn', sv', a, u, curl, key. split; [reflexivity|].
    rewrite Hl. apply last_snoc.
  - destruct Ho as (_ & [Ho|Ho]); [congruence|].
    exfalso. apply Ho. eauto.
Qed.

(** X6. When the [exists] of the answer is false as Python has it, the
    upload is always made: the command of the upload can be built
    whenever that of the query could, so the [except] of line 166 is never
    reached. *)
Theorem exists_falsy_uploads w e f out s' cmd body r t :
  run_main w e f = (out, s') ->
  cmd ∈ popen_calls (log s') ->
  is_upload_cmd cmd = false ->
  popen w cmd = Ok body ->
  json_loads w body = Some r ->
  getitem r "exists" = Ok t ->
  truthy t = false ->
  exists u, is_upload_cmd u = true /\ popen_calls (log s') = [cmd; u].
Proof.
  intros Hrun Hin Hnu Hp Hj Hex Ht.
  destruct (run_main_query _ _ _ _ _ _ Hrun Hin Hnu)
    as (n & v & s1 & Hprep & Q1 & _ & Hq & H).
  rewrite Hp, Hj in H. destruct H as (o1 & s2 & Hquit & Hrest).
  apply quit_if_exists_inv in Hquit as (He2 & _ & _ & _ & Ho).
  destruct (prepare_val _ _ _ _ _ _ Hprep)
    as (pkg & pi & _ & _ & Hpkg & _ & Hpi & _).
  destruct o1 as [[]| |x].
  - destruct Ho as (-> & _). destruct Hrest as (o2 & Hu & _).
    destruct (upload_cmd_ready _ _ _ _
                (mkState (env s1) (fs s1) (log s1 ++ [EvPopen cmd]))
                _ _ Hq Hpkg Hpi eq_refl) as (u & Hucmd).
    apply upload_package_calls in Hu as (_ & _ & Hu).
    rewrite Hucmd in Hu. destruct Hu as [Hiu Hu].
    exists u. split; [exact Hiu|]. rewrite Hu. simpl. log_simpl.
    rewrite Q1. reflexivity.
  - destruct Ho as ((t' & Ht' & Hf) & _). congruence.
  - destruct Ho as (_ & [Ho|Ho]); [congruence|].
    exfalso. apply Ho. eauto.
Qed.

(** X7. An answer to the query that has no [exists] (an object without
    that member, or JSON that is not an object) ends the run with the
    [KeyError] or [TypeError] of [response["exists"]]: nothing is
    reported and nothing is uploaded. *)
Theorem answer_without_exists w e f out s' cmd body r x :
  run_main w e f = (out, s') ->
  cmd ∈ popen_calls (log s') ->
  is_upload_cmd cmd = false ->
  popen w cmd = Ok body ->
  json_loads w body = Some r ->
  getitem r "exists" = Err x ->
  out = Raise x
  /\ popen_calls (log s') = [cmd]
  /\ last (log s') = Some (EvPopen cmd).
Proof.
  intros Hrun Hin Hnu Hp Hj Hex.
  destruct (run_main_query _ _ _ _ _ _ Hrun Hin Hnu)
    as (n & v & s1 & _ & Q1 & _ & _ & H).
  rewrite Hp, Hj in H. destruct H as (o1 & s2 & Hquit & Hrest).
  apply quit_if_exists_inv in Hquit as (_ & _ & _ & _ & Ho).
  destruct o1 as [[]| |x0].
  - destruct Ho as (_ & t' & Ht' & _). congruence.
  - destruct Ho as ((t' & Ht' & _) & _). congruence.
  - destruct Hrest as [-> ->]. destruct Ho as (-> & [Ho|Ho]).
    + simpl. log_simpl. rewrite Q1.
      split; [congruence|]. split; [reflexivity|apply last_snoc].
    + exfalso. apply Ho. eauto.
Qed.

(** X8. An answer to the upload that has no [type] ends the run with the
    exception of [response["type"]]: the package has been sent, and
    nothing is reported and nothing is posted to Slack. *)
Theorem answer_without_type w e f out s' cmd body r x :
  run_main w e f = (out, s') ->
  cmd ∈ popen_calls (log s') ->
  is_upload_cmd cmd = true ->
  popen w cmd = Ok body ->
  json_loads w body = Some r ->
  getitem r "type" = Err x ->
  out = Raise x
  /\ slack_calls (log s') = []
  /\ last (log s') = Some (EvPopen cmd).
Proof.
  intros Hrun Hin Hiu Hp Hj Hty.
  destruct (run_main_upload _ _ _ _ _ _ Hrun Hin Hiu)
    as (_ & _ & _ & s2 & _ & _ & _ & _ & Q2 & _ & H).
  rewrite Hp, Hj in H. destruct H as (o2 & Hrep & ->).
  apply report_upload_inv in Hrep as (_ & _ & _ & _ & H).
  rewrite Hty in H. destruct H as [-> ->]. simpl. log_simpl.
  rewrite Q2. split; [reflexivity|]. split; [reflexivity|apply last_snoc].
Qed.

(** X9. When [subprocess.Popen] raises for a call to munkiserver (no curl
    at [CURL_PATH], say), the run ends with that exception at the call:
    nothing is reported after it and nothing is posted to Slack. *)
Theorem curl_failure_propagates w e f out s' cmd x :
  run_main w e f = (out, s') ->
  cmd ∈ popen_calls (log s') ->
  popen w cmd = Err x ->
  out = Raise x
  /\ slack_calls (log s') = []
  /\ last (log s') = Some (EvPopen cmd).
Proof.
  intros Hrun Hin Hp. destruct (is_upload_cmd cmd) eqn:Hup.
  - destruct (run_main_upload _ _ _ _ _ _ Hrun Hin Hup)
      as (_ & _ & _ & s2 & _ & _ & _ & _ & Q2 & _ & H).
    rewrite Hp in H. destruct H as [-> ->]. simpl. log_simpl.
    rewrite Q2. split; [reflexivity|]. split; [reflexivity|apply last_snoc].
  - destruct (run_main_query _ _ _ _ _ _ Hrun Hin Hup)
      as (n & v & s1 & _ & _ & Q2 & _ & H).
    rewrite Hp in H. destruct H as [-> ->]. simpl. log_simpl.
    rewrite Q2. split; [reflexivity|]. split; [reflexivity|apply last_snoc].
Qed.

(** X10. When the answer to the upload is not JSON, the run ends with the
    [ValueError] of [json.loads] at line 173: the package has been sent,
    and the run reports neither success nor failure and posts nothing. *)
Theorem upload_answer_not_json w e f out s' cmd body :
  run_main w e f = (out, s') ->
  cmd ∈ popen_calls (log s') ->
  is_upload_cmd cmd = true ->
  popen w cmd = Ok body ->
  json_loads w body = None ->
  out = Raise ValueError
  /\ slack_calls (log s') = []
  /\ last (log s') = Some (EvPopen cmd).
Proof.
  intros Hrun Hin Hiu Hp Hj.
  destruct (run_main_upload _ _ _ _ _ _ Hrun Hin Hiu)
    as (_ & _ & _ & s2 & _ & _ & _ & _ & Q2 & _ & H).
  rewrite Hp, Hj in H. destruct H as [-> ->]. simpl. log_simpl.
  rewrite Q2. split; [reflexivity|]. split; [reflexivity|apply last_snoc].
Qed.

Lemma eq_str_true v lit : eq_str v lit = true -> v = VStr lit.
Proof.
  destruct v; simpl; try discriminate. intros H.
  apply String.eqb_eq in H. congruence.
Qed.

(** [report_upload] posts to Slack at most once, and only for an answer
    of type ["success"] with a string [message] and a string
    [edit_url]. *)
Lemma report_upload_slack w r s o s' :
  report_upload w r s = (o, s') ->
  slack_calls (log s') = slack_calls (log s)
  \/ exists m url,
       getitem r "type" = Ok (VStr "success")
       /\ getitem r "message" = Ok (VStr m)
       /\ getitem r "edit_url" = Ok (VStr url)
       /\ slack_calls (log s')
          = slack_calls (log s) ++ [VStr (slack_text +:+ url)].
Proof.
  intros H. unfold report_upload in H. monad_unfold.
  mcases;
    try (apply send_slack_notification_inv in H
           as (_ & _ & _ & _ & _ & Hs); simpl in Hs);
    try (left; log_simpl; reflexivity).
  match goal with E : eq_str _ _ = true |- _ => apply eq_str_true in E end.
  subst. destruct (env _ !! "slack_api_token").
  - right. do 2 eexists. repeat split; eauto. rewrite Hs. log_simpl.
    reflexivity.
  - left. destruct Hs as [-> _]. simpl. log_simpl. reflexivity.
Qed.

(** X11. A run posts to Slack at most once, and only after an upload that
    munkiserver has answered with type ["success"], a [message] and an
    [edit_url]: the text of the post ends with that [edit_url]. *)
Theorem slack_only_after_success w e f out s' text :
  run_main w e f = (out, s') ->
  text ∈ slack_calls (log s') ->
  exists q u body r m url,
    popen_calls (log s') = [q; u]
    /\ is_upload_cmd u = true
    /\ popen w u = Ok body
    /\ json_loads w body = Some r
    /\ getitem r "type" = Ok (VStr "success")
    /\ getitem r "message" = Ok (VStr m)
    /\ getitem r "edit_url" = Ok (VStr url)
    /\ text = VStr (slack_text +:+ url)
    /\ slack_calls (log s') = [text].
Proof.
  intros Hrun Hin. unfold run_main in Hrun. apply main_inv in Hrun.
  pose proof (quiet_prepare w (mkState e f [])) as (Q1 & Q2 & _).
  destruct (prepare w _) as [[[n v]| |x] s1]; simpl in Q1, Q2;
    [|destruct Hrun as [_ ->]; rewrite Q2 in Hin; inversion Hin
     |destruct Hrun as [_ ->]; rewrite Q2 in Hin; inversion Hin].
  apply registry_inv in Hrun as (o1 & s2 & Hc & Hrest).
  apply check_exists_calls in Hc as (Hs2 & _ & _ & Hcc).
  rewrite Q2 in Hs2.
  destruct o1 as [[]| |x];
    [|destruct Hrest as [_ ->]; rewrite Hs2 in Hin; inversion Hin
     |destruct Hrest as [_ ->]; rewrite Hs2 in Hin; inversion Hin].
  destruct (query_cmd n v s1) as [[q| |xq] sq];
    [|destruct Hcc; discriminate|destruct Hcc; discriminate].
  rewrite Q1 in Hcc. simpl in Hcc.
  destruct Hrest as (o2 & Hu & _). apply upload_package_inv in Hu.
  destruct (upload_cmd s2) as [[u| |xu] su].
  - destruct Hu as (Hiu & Hu).
    destruct (popen w u) as [body|xp] eqn:Hpo;
      [|destruct Hu as [_ ->]; simpl in Hin; revert Hin; log_simpl;
        rewrite Hs2; intros Hin; inversion Hin].
    destruct (json_loads w body) as [r|] eqn:Hjs;
      [|destruct Hu as [_ ->]; simpl in Hin; revert Hin; log_simpl;
        rewrite Hs2; intros Hin; inversion Hin].
    pose proof (report_upload_inv _ _ _ _ _ Hu) as (_ & _ & _ & Hp & _).
    apply report_upload_slack in Hu. revert Hu Hp. simpl. log_simpl.
    rewrite Hs2, Hcc. simpl. intros [Hu|(m & url & Hty & Hm & Hurl & Hu)] Hp.
    + rewrite Hu in Hin. inversion Hin.
    + rewrite Hu in Hin. apply list_elem_of_singleton in Hin as ->.
      exists q, u, body, r, m, url. repeat split; auto.
  - destruct Hu as [_ ->]. simpl in Hin. revert Hin. log_simpl.
    rewrite Hs2. intros Hin. inversion Hin.
  - destruct Hu as [_ ->]. simpl in Hin. revert Hin. log_simpl.
    rewrite Hs2. intros Hin. inversion Hin.
Qed.

(** X12. A run that makes no call to munkiserver and ends normally always
    says why: the last thing it does is to give one of the four
    diagnostics of [main] to [self.output]. *)
Theorem quiet_end_is_explained w e f s' :
  run_main w e f = (Val tt, s') ->
  popen_calls (log s') = [] ->
  exists msg,
    msg ∈ diagnostics /\ last (log s') = Some (EvOutput (VStr msg)).
Proof.
  intros Hrun Hnone. unfold run_main in Hrun. apply main_inv in Hrun.
  pose proof (quiet_prepare w (mkState e f [])) as (Q1 & _).
  destruct (prepare w _) as [[[n v]| |x] s1] eqn:Hprep; simpl in Q1.
  - apply registry_inv in Hrun as (o1 & s2 & Hc & Hrest).
    apply check_exists_calls in Hc as (_ & _ & _ & Hcc).
    destruct (query_cmd n v s1) as [[q| |xq] sq].
    + exfalso. rewrite Q1 in Hcc. simpl in Hcc.
      destruct o1 as [[]| |x];
        [|destruct Hrest as [_ ->]; congruence
         |destruct Hrest as [_ ->]; congruence].
      destruct Hrest as (o2 & Hu & _).
      apply upload_package_calls in Hu as (_ & _ & Hu).
      destruct (upload_cmd s2) as [[u| |xu] su].
      * destruct Hu as [_ Hu]. rewrite Hu, Hcc in Hnone. discriminate.
      * destruct Hu as [_ Hu]. rewrite Hu in Hnone. revert Hnone.
        log_simpl. rewrite Hcc. discriminate.
      * destruct Hu as [_ Hu]. rewrite Hu in Hnone. revert Hnone.
        log_simpl. rewrite Hcc. discriminate.
    + destruct Hcc as [-> Hl]. destruct Hrest as [_ ->].
      exists config_hint. split; [|rewrite Hl; apply last_snoc].
      unfold diagnostics. set_solver.
    + destruct Hcc as [-> Hl]. destruct Hrest as [_ ->].
      exists config_hint. split; [|rewrite Hl; apply last_snoc].
      unfold diagnostics. set_solver.
  - destruct Hrun as [_ ->].
    apply prepare_inv in Hprep as (o0 & s0 & Hloc & Hload).
    apply locate_package_cases in Hloc as (_ & _ & _ & Hloc).
    destruct o0 as [[]| |x]; [|destruct Hload as [_ ->]
                              |destruct Hload; discriminate].
    + destruct Hloc as (_ & pkg & Hpkg & _).
      apply (load_pkginfo_cases _ _ _ _ pkg) in Hload; [|exact Hpkg].
      destruct (env s0 !! "pkginfo_file").
      * destruct Hload as (_ & _ & _ & _ & Hl).
        exists "pkginfo file specified but not found".
        split; [|rewrite Hl; apply last_snoc].
        unfold diagnostics. set_solver.
      * destruct Hload as (_ & _ & []).
    + destruct Hloc as [Hl|Hl]; eexists; (split; [|exact Hl]);
        unfold diagnostics; set_solver.
  - destruct Hrun as [Hrun _]. discriminate.
Qed.

(** X13. When the upload is answered with type ["success"], a [message]
    and an [edit_url], and Slack takes the post (its answer has a true
    [ok]), the run ends normally, and what it does from the upload on is,
    in this order: the upload, the line with the [message], the line with
    the [edit_url], the post to the channel [munkiserver-packages]. *)
Theorem successful_upload_log
    w e f out s' cmd body r m url token res okv :
  run_main w e f = (out, s') ->
  cmd ∈ popen_calls (log s') ->
  is_upload_cmd cmd = true ->
  popen w cmd = Ok body ->
  json_loads w body = Some r ->
  getitem r "type" = Ok (VStr "success") ->
  getitem r "message" = Ok (VStr m) ->
  getitem r "edit_url" = Ok (VStr url) ->
  e !! "slack_api_token" = Some token ->
  api_call w token "munkiserver-packages" (VStr (slack_text +:+ url))
  = Ok res ->
  getitem res "ok" = Ok okv ->
  truthy okv = true ->
  out = Val tt
  /\ exists before,
       log s' = before ++
         [EvPopen cmd;
          EvOutput (VStr ("Upload succeeded: " +:+ m));
          EvOutput (VStr ("URL: " +:+ url));
          EvSlack token "munkiserver-packages" (VStr (slack_text +:+ url))].
Proof.
  intros Hrun Hin Hiu Hp Hj Hty Hm Hurl Htok Hcall Hok Ht.
  destruct (run_main_upload _ _ _ _ _ _ Hrun Hin Hiu)
    as (_ & _ & _ & s2 & _ & _ & _ & _ & _ & Q3 & H).
  rewrite Hp, Hj in H. destruct H as (o2 & Hrep & ->).
  rewrite <- Q3 in Htok by discriminate.
  unfold report_upload, send_slack_notification in Hrep. monad_unfold.
  simpl in Hrep.
  repeat (progress (rewrite ?Hty, ?Hm, ?Hurl, ?Htok, ?Hcall, ?Hok, ?Ht
                      in Hrep); simpl in Hrep).
  simplify_eq. split; [reflexivity|]. exists (log s2). simpl.
  rewrite <- !app_assoc. reflexivity.
Qed.

(** X14. The multipart POST of a run goes to [api_url/unit/packages] with
    the [api_key] of the environment in its header, and sends the package
    file, which was on the disk at the start, and the pkginfo file, which
    is on the disk at the end. *)
Theorem upload_sends_files_on_disk w e f out s' cmd :
  run_main w e f = (out, s') ->
  cmd ∈ popen_calls (log s') ->
  is_upload_cmd cmd = true ->
  exists a u curl key pkg pi,
    e !! "api_url" = Some (VStr a)
    /\ e !! "unit" = Some (VStr u)
    /\ e !! "CURL_PATH" = Some curl
    /\ e !! "api_key" = Some (VStr key)
    /\ env s' !! "package_file" = Some (VStr pkg)
    /\ is_Some (f !! pkg)
    /\ env s' !! "pkginfo_file" = Some (VStr pi)
    /\ is_Some (fs s' !! pi)
    /\ cmd = [curl; VStr "--header"; VStr ("X-Api-Key: " +:+ key);
              VStr "-F"; VStr ("pkginfo_file=@" +:+ pi);
              VStr "-F"; VStr ("package_file=@" +:+ pkg);
              VStr "--url"; VStr (a +:+ "/" +:+ u +:+ "/packages")].
Proof.
  intros Hrun Hin Hiu.
  destruct (run_main_upload _ _ _ _ _ _ Hrun Hin Hiu)
    as (n & v & s1 & s2 & Hprep & He2 & _ & Hu & _ & Q3 & _).
  destruct (run_main_after_prepare _ _ _ _ _ Hrun) as (He & Hf & _).
  rewrite Hprep in He, Hf. simpl in He, Hf.
  destruct (prepare_val _ _ _ _ _ _ Hprep)
    as (pkg & pi & raw & plist & Hpkg & Hex & Hpi & Hraw & _).
  apply upload_cmd_inv in Hu as [_ Hu].
  destruct Hu as (a & u & curl & key & pi' & pkg' & Ha & Hun & Hc & Hk
                  & Hpi' & Hpkg' & ->).
  rewrite He2 in Hpi', Hpkg'. simplify_eq.
  rewrite Q3 in Ha, Hun, Hc, Hk by discriminate.
  exists a, u, curl, key. do 2 eexists. rewrite He, Hf.
  repeat split; eauto.
Qed.

(** X15. The query of a run asks about the name and the version that
    [readPlist] finds in the pkginfo file as it is on the disk at the
    end of the run, the file an upload sends: the URL is
    [api_url/unit/packages/name/version]. *)
Theorem query_asks_about_pkginfo_on_disk w e f out s' cmd :
  run_main w e f = (out, s') ->
  cmd ∈ popen_calls (log s') ->
  is_upload_cmd cmd = false ->
  exists a u curl key n v pi raw plist,
    e !! "api_url" = Some (VStr a)
    /\ e !! "unit" = Some (VStr u)
    /\ e !! "api_key" = Some (VStr key)
    /\ env s' !! "pkginfo_file" = Some (VStr pi)
    /\ fs s' !! pi = Some raw
    /\ readPlist w raw = Ok plist
    /\ getitem plist "name" = Ok (VStr n)
    /\ getitem plist "version" = Ok (VStr v)
    /\ cmd = [curl; VStr "--header"; VStr ("X-Api-Key: " +:+ key);
              VStr "--url";
              VStr (a +:+ "/" +:+ u +:+ "/packages/" +:+ n +:+ "/" +:+ v)].
Proof.
  intros Hrun Hin Hnu.
  destruct (run_main_query _ _ _ _ _ _ Hrun Hin Hnu)
    as (n & v & s1 & Hprep & _ & _ & Hq & _).
  pose proof (quiet_prepare w (mkState e f [])) as (_ & _ & Q3).
  destruct (run_main_after_prepare _ _ _ _ _ Hrun) as (He & Hf & _).
  rewrite Hprep in He, Hf, Q3. simpl in He, Hf, Q3.
  destruct (prepare_val _ _ _ _ _ _ Hprep)
    as (pkg & pi & raw & plist & _ & _ & Hpi & Hraw & Hr & Hn & Hv).
  apply query_cmd_inv in Hq as [_ Hq].
  destruct Hq as (a & u & sn & sv & curl & key & Ha & Hun & ? & ? & _
                  & Hk & ->). simplify_eq.
  rewrite Q3 in Ha, Hun, Hk by discriminate.
  exists a, u, curl, key, sn, sv, pi, raw, plist. rewrite He, Hf.
  repeat split; auto.
Qed.

(** ** What a run leaves behind *)

(** Takes a run apart at [prepare]: what is true of the end of the run is
    stated of the end of [prepare], and [prepare] is split into
    [locate_package] and [load_pkginfo]. *)
Ltac run_to_prepare Hrun :=
  let He := fresh "He" in
  let Hf := fresh "Hf" in
  let Ht := fresh "Ht" in
  let Hprep := fresh "Hprep" in
  let Hloc := fresh "Hloc" in
  let Hload := fresh "Hload" in
  let Hfr0 := fresh "Hfr0" in
  let Hfs0 := fresh "Hfs0" in
  let Ht0 := fresh "Ht0" in
  let Hch0 := fresh "Hch0" in
  destruct (run_main_after_prepare _ _ _ _ _ Hrun) as (He & Hf & Ht);
  match type of He with
  | context [prepare ?w ?s] =>
      destruct (prepare w s) as [?o ?s1] eqn:Hprep
  end;
  simpl in He, Hf, Ht;
  pose proof Hprep as Hload;
  apply prepare_inv in Hload as (?o0 & ?s0 & Hloc & Hload);
  pose proof (locate_package_inv _ _ _ Hloc) as [_ Hfr0];
  apply locate_package_cases in Hloc as (Hfs0 & Ht0 & Hch0 & Hloc);
  simpl in Hfr0, Hfs0, Ht0, Hch0, Hloc.

(** X16. The only file a run writes is the pkginfo it makes when none is
    given: [package_file] with [.plist] added, beside a package file that
    was there at the start. Every other path of the disk is at the end as
    it was at the start. *)
Theorem run_writes_only_the_plist w e f out s' p :
  run_main w e f = (out, s') ->
  fs s' !! p <> f !! p ->
  e !! "pkginfo_file" = None
  /\ exists pkg,
       env s' !! "package_file" = Some (VStr pkg)
       /\ is_Some (f !! pkg)
       /\ p = pkg +:+ ".plist".
Proof.
  intros Hrun Hp. run_to_prepare Hrun. rewrite Hf in Hp. rewrite He.
  destruct o0 as [[]| |x];
    [|destruct Hload as [_ ->]; congruence
     |destruct Hload as [_ ->]; congruence].
  destruct Hloc as (_ & pkg & Hpkg & Hex).
  apply (load_pkginfo_cases _ _ _ _ pkg) in Hload; [|exact Hpkg].
  destruct (env s0 !! "pkginfo_file") as [pi0|] eqn:Hpi.
  - destruct Hload as (_ & Hfs1 & _). congruence.
  - destruct Hload as (Hfs1 & He1 & _).
    rewrite <- (Hfr0 "pkginfo_file") by discriminate.
    split; [exact Hpi|]. exists pkg.
    rewrite He1, lookup_insert_ne by discriminate.
    split; [exact Hpkg|]. split; [exact Hex|].
    destruct (decide (p = pkg +:+ ".plist")) as [->|Hne]; [reflexivity|].
    exfalso. apply Hp. rewrite Hfs1 by exact Hne. congruence.
Qed.

(** X17. A run assigns two keys of [self.env] at most: [package_file],
    to the value of [pathname] when what it held was false; and
    [pkginfo_file], to the path of the pkginfo it makes when the key was
    not there. Every other key is at the end as it was at the start. *)
Theorem run_env_changes w e f out s' k :
  run_main w e f = (out, s') ->
  env s' !! k <> e !! k ->
  (k = "package_file"
   /\ env s' !! k = e !! "pathname"
   /\ exists v0, e !! "package_file" = Some v0 /\ truthy v0 = false)
  \/ (k = "pkginfo_file"
      /\ e !! "pkginfo_file" = None
      /\ exists pkg,
           env s' !! "package_file" = Some (VStr pkg)
           /\ env s' !! k = Some (VStr (pkg +:+ ".plist"))).
Proof.
  intros Hrun Hk. run_to_prepare Hrun. rewrite He in *.
  destruct o0 as [[]| |x];
    [|destruct Hload as [_ ->]; left; apply Hch0; exact Hk
     |destruct Hload as [_ ->]; left; apply Hch0; exact Hk].
  destruct Hloc as (_ & pkg & Hpkg & Hex).
  apply (load_pkginfo_cases _ _ _ _ pkg) in Hload; [|exact Hpkg].
  destruct (env s0 !! "pkginfo_file") as [pi0|] eqn:Hpi.
  - destruct Hload as (He1 & _). rewrite He1 in *.
    left. apply Hch0. exact Hk.
  - destruct Hload as (_ & He1 & _). rewrite He1 in *.
    destruct (decide (k = "pkginfo_file")) as [->|Hne].
    + right. split; [reflexivity|].
      rewrite <- (Hfr0 "pkginfo_file") by discriminate.
      split; [exact Hpi|]. exists pkg.
      rewrite lookup_insert_ne by discriminate. rewrite lookup_insert_eq.
      auto.
    + rewrite lookup_insert_ne in * by congruence.
      left. apply Hch0. exact Hk.
Qed.

Lemma makepkginfo_args_frame (e e' : gmap string value) pkg :
  (forall k, k <> "package_file" -> e' !! k = e !! k) ->
  makepkginfo_args e' pkg = makepkginfo_args e pkg.
Proof.
  intros H. unfold makepkginfo_args, optional_arg.
  rewrite !H by discriminate. reflexivity.
Qed.

(** The tool calls of [prepare] for the package it has located. *)
Lemma load_pkginfo_tool_calls w s o s1 pkg args :
  load_pkginfo w s = (o, s1) ->
  env s !! "package_file" = Some (VStr pkg) ->
  tool_calls (log s) = [] ->
  args ∈ tool_calls (log s1) ->
  env s !! "pkginfo_file" = None
  /\ args = makepkginfo_args (env s) pkg
  /\ tool_calls (log s1) = [args]
  /\ env s1 !! "package_file" = Some (VStr pkg)
  /\ match subprocess_call w args with
     | Err x => o = Raise x /\ fs s1 !! (pkg +:+ ".plist") = Some ""
     | Ok _ => is_Some (fs s1 !! (pkg +:+ ".plist"))
     end.
Proof.
  intros Hload Hpkg Hnil Hin.
  apply (load_pkginfo_cases _ _ _ _ pkg) in Hload; [|exact Hpkg].
  destruct (env s !! "pkginfo_file") as [pi0|] eqn:Hpi.
  - destruct Hload as (_ & _ & Ht & _). rewrite Ht, Hnil in Hin.
    inversion Hin.
  - destruct Hload as (_ & He1 & Hload). split; [reflexivity|].
    rewrite He1, lookup_insert_ne by discriminate.
    rewrite Hnil in Hload. simpl in Hload.
    destruct o as [[n v]| |x]; [|contradiction|].
    + destruct Hload as (Ht & raw & d & n0 & v0 & plist & Hc & _ & _ & _
                         & Hw & _).
      rewrite Ht in Hin. apply list_elem_of_singleton in Hin as ->.
      rewrite Hc, Hw. eauto.
    + destruct Hload as [(_ & _ & Ht)|(Ht & Hm)].
      * rewrite Ht in Hin. inversion Hin.
      * rewrite Ht in Hin. apply list_elem_of_singleton in Hin as ->.
        repeat split; auto.
        destruct (subprocess_call w _); [exact Hm|].
        destruct Hm as [-> Hm]. auto.
Qed.

(** X18. [makepkginfo] is started at most once in a run, only when no
    pkginfo file is given, on the package file that was found on the
    disk, and with the options of the environment that are set: [--name],
    [--displayname] and [--destinationpath], in that order, each only
    when its value is there and true. *)
Theorem makepkginfo_command_line w e f out s' args :
  run_main w e f = (out, s') ->
  args ∈ tool_calls (log s') ->
  e !! "pkginfo_file" = None
  /\ exists pkg,
       env s' !! "package_file" = Some (VStr pkg)
       /\ is_Some (f !! pkg)
       /\ args = makepkginfo_args e pkg
       /\ tool_calls (log s') = [args].
Proof.
  intros Hrun Hin. run_to_prepare Hrun. rewrite Ht in *. rewrite He.
  destruct o0 as [[]| |x];
    [|destruct Hload as [_ ->]; rewrite Ht0 in Hin; inversion Hin
     |destruct Hload as [_ ->]; rewrite Ht0 in Hin; inversion Hin].
  destruct Hloc as (_ & pkg & Hpkg & Hex).
  destruct (load_pkginfo_tool_calls _ _ _ _ _ _ Hload Hpkg Ht0 Hin)
    as (Hpi & -> & Htc & Hpkg1 & _).
  rewrite <- (Hfr0 "pkginfo_file") by discriminate.
  split; [exact Hpi|]. exists pkg.
  rewrite (makepkginfo_args_frame e (env s0) pkg Hfr0) in *. auto.
Qed.

(** X19. When [makepkginfo] cannot be run, the run ends with the
    exception of [subprocess.call] before any call to munkiserver, and
    leaves behind the empty pkginfo file it had opened for the output of
    the tool. *)
Theorem makepkginfo_failure w e f out s' args x :
  run_main w e f = (out, s') ->
  args ∈ tool_calls (log s') ->
  subprocess_call w args = Err x ->
  out = Raise x
  /\ popen_calls (log s') = []
  /\ exists pkg,
       env s' !! "package_file" = Some (VStr pkg)
       /\ fs s' !! (pkg +:+ ".plist") = Some "".
Proof.
  intros Hrun Hin Hx. run_to_prepare Hrun. rewrite Ht in *.
  rewrite He, Hf.
  destruct o0 as [[]| |x0];
    [|destruct Hload as [_ ->]; rewrite Ht0 in Hin; inversion Hin
     |destruct Hload as [_ ->]; rewrite Ht0 in Hin; inversion Hin].
  destruct Hloc as (_ & pkg & Hpkg & Hex).
  destruct (load_pkginfo_tool_calls _ _ _ _ _ _ Hload Hpkg Ht0 Hin)
    as (_ & _ & _ & Hpkg1 & Hm).
  rewrite Hx in Hm. destruct Hm as [-> Hm].
  unfold run_main in Hrun. apply main_inv in Hrun. rewrite Hprep in Hrun.
  destruct Hrun as [-> ->].
  pose proof (quiet_prepare w (mkState e f [])) as (Q1 & _).
  rewrite Hprep in Q1. simpl in Q1. eauto.
Qed.

(** X20. When a run makes its own pkginfo and [readPlist] gives back the
    record [writePlist] has written, the name and the version in the URL
    of the query are those of [makepkginfo] after the substitution. *)
Theorem generated_pkginfo_sanitized
    w e f out s' cmd args raw d n v :
  run_main w e f = (out, s') ->
  cmd ∈ popen_calls (log s') ->
  is_upload_cmd cmd = false ->
  args ∈ tool_calls (log s') ->
  subprocess_call w args = Ok raw ->
  readPlist w raw = Ok (VDict d) ->
  d !! "name" = Some (VStr n) ->
  d !! "version" = Some (VStr v) ->
  readPlist w
    (writePlist w
       (VDict (<["version" := VStr (sanitize v)]>
                 (<["name" := VStr (sanitize n)]> d)))).1
  = Ok (VDict (<["version" := VStr (sanitize v)]>
                 (<["name" := VStr (sanitize n)]> d))) ->
  exists a u curl key,
    cmd = [curl; VStr "--header"; VStr ("X-Api-Key: " +:+ key);
           VStr "--url";
           VStr (a +:+ "/" +:+ u +:+ "/packages/" +:+ sanitize n
                 +:+ "/" +:+ sanitize v)].
Proof.
  intros Hrun Hin Hnu Hargs Hc Hr Hn Hv Hround.
  destruct (run_main_query _ _ _ _ _ _ Hrun Hin Hnu)
    as (n' & v' & s1' & Hprep' & _ & _ & Hq & _).
  run_to_prepare Hrun. rewrite Ht in *. simplify_eq.
  destruct o0 as [[]| |x0];
    [|destruct Hload; discriminate|destruct Hload; discriminate].
  destruct Hloc as (_ & pkg & Hpkg & Hex).
  pose proof (load_pkginfo_tool_calls _ _ _ _ _ _ Hload Hpkg Ht0 Hargs)
    as (Hpi & -> & _).
  apply (load_pkginfo_cases _ _ _ _ pkg) in Hload; [|exact Hpkg].
  rewrite Hpi in Hload.
  destruct Hload as (_ & _ & _ & raw0 & d0 & n0 & v0 & plist & Hc0 & Hr0
                     & Hn0 & Hv0 & _ & Hr1 & Hn1 & Hv1).
  assert (raw0 = raw) as -> by congruence.
  assert (d0 = d) as -> by congruence.
  assert (n0 = n) as -> by congruence.
  assert (v0 = v) as -> by congruence.
  rewrite Hround in Hr1. simplify_eq. simpl in Hn1, Hv1.
  rewrite lookup_insert_ne in Hn1 by discriminate.
  rewrite lookup_insert_eq in Hn1, Hv1. simplify_eq.
  apply query_cmd_inv in Hq as [_ Hq].
  destruct Hq as (a & u & sn & sv & curl & key & _ & _ & ? & ? & _ & _
                  & ->). simplify_eq.
  exists a, u, curl, key. reflexivity.
Qed.

(** ** The edges on runs against the stub world *)

Ltac by_run := vm_compute; reflexivity.
Ltac in_calls n :=
  apply list_elem_of_In; vm_compute;
  match n with
  | 0 => left; reflexivity
  | 1 => right; left; reflexivity
  end.

(** A registry that answers [exists] with the string ["no"]. *)
Lemma exists_truthy_quits_witness :
  run_exists_no.1 = Val tt
  /\ popen_calls (log run_exists_no.2) = [stub_query raw_name raw_version]
  /\ exists n v a u curl key,
       stub_query raw_name raw_version
       = [curl; VStr "--header"; VStr ("X-Api-Key: " +:+ key);
          VStr "--url";
          VStr (a +:+ "/" +:+ u +:+ "/packages/" +:+ n +:+ "/" +:+ v)]
       /\ last (log run_exists_no.2)
          = Some (EvOutput
                    (VStr (n +:+ " version " +:+ v +:+
                           " is already in munkiserver.  Quitting."))).
Proof.
  apply (exists_truthy_quits world_exists_no stub_env_given stub_fs
           run_exists_no.1 run_exists_no.2
           (stub_query raw_name raw_version) body_exists_no
           (VDict {[ "exists" := VStr "no" ]}) (VStr "no")).
  - apply surjective_pairing.
  - in_calls 0.
  - by_run.
  - by_run.
  - by_run.
  - by_run.
  - by_run.
Defined.

(** A registry that answers [exists] with [null]. *)
Lemma exists_falsy_uploads_witness :
  exists u,
    is_upload_cmd u = true
    /\ popen_calls (log run_exists_null.2)
       = [stub_query raw_name raw_version; u].
Proof.
  apply (exists_falsy_uploads world_exists_null stub_env_given stub_fs
           run_exists_null.1 run_exists_null.2
           (stub_query raw_name raw_version) body_exists_null
           (VDict {[ "exists" := VNone ]}) VNone).
  - apply surjective_pairing.
  - in_calls 0.
  - by_run.
  - by_run.
  - by_run.
  - by_run.
  - by_run.
Defined.

(** A registry that answers the query with an empty object. *)
Lemma answer_without_exists_witness :
  run_empty_answer.1 = Raise KeyError
  /\ popen_calls (log run_empty_answer.2)
     = [stub_query raw_name raw_version]
  /\ last (log run_empty_answer.2)
     = Some (EvPopen (stub_query raw_name raw_version)).
Proof.
  apply (answer_without_exists world_empty_answer stub_env_given stub_fs
           run_empty_answer.1 run_empty_answer.2
           (stub_query raw_name raw_version) body_empty_object
           (VDict ∅) KeyError).
  - apply surjective_pairing.
  - in_calls 0.
  - by_run.
  - by_run.
  - by_run.
  - by_run.
Defined.

(** A registry that answers the upload with a [message] and no [type]. *)
Lemma answer_without_type_witness :
  run_untyped_upload.1 = Raise KeyError
  /\ slack_calls (log run_untyped_upload.2) = []
  /\ last (log run_untyped_upload.2)
     = Some (EvPopen (stub_upload given_pkginfo_path)).
Proof.
  apply (answer_without_type world_untyped_upload stub_env_given stub_fs
           run_untyped_upload.1 run_untyped_upload.2
           (stub_upload given_pkginfo_path) body_upload_untyped
           (VDict {[ "message" := VStr "stored" ]}) KeyError).
  - apply surjective_pairing.
  - in_calls 1.
  - by_run.
  - by_run.
  - by_run.
  - by_run.
Defined.

(** No curl at [CURL_PATH]. *)
Lemma curl_failure_propagates_witness :
  run_no_curl.1 = Raise OSError
  /\ slack_calls (log run_no_curl.2) = []
  /\ last (log run_no_curl.2)
     = Some (EvPopen (stub_query raw_name raw_version)).
Proof.
  apply (curl_failure_propagates world_no_curl stub_env_given stub_fs
           run_no_curl.1 run_no_curl.2
           (stub_query raw_name raw_version) OSError).
  - apply surjective_pairing.
  - in_calls 0.
  - by_run.
Defined.

(** A registry that answers the upload with a page that is not JSON. *)
Lemma upload_answer_not_json_witness :
  run_upload_not_json.1 = Raise ValueError
  /\ slack_calls (log run_upload_not_json.2) = []
  /\ last (log run_upload_not_json.2)
     = Some (EvPopen (stub_upload given_pkginfo_path)).
Proof.
  apply (upload_answer_not_json world_upload_not_json stub_env_given
           stub_fs run_upload_not_json.1 run_upload_not_json.2
           (stub_upload given_pkginfo_path) body_not_json).
  - apply surjective_pairing.
  - in_calls 1.
  - by_run.
  - by_run.
  - by_run.
Defined.

(** The post of the run that makes its pkginfo and uploads it. *)
Lemma slack_only_after_success_witness :
  exists q u body r m url,
    popen_calls (log run_generated.2) = [q; u]
    /\ is_upload_cmd u = true
    /\ popen world_upload_ok u = Ok body
    /\ json_loads world_upload_ok body = Some r
    /\ getitem r "type" = Ok (VStr "success")
    /\ getitem r "message" = Ok (VStr m)
    /\ getitem r "edit_url" = Ok (VStr url)
    /\ VStr (slack_text +:+ "http://x") = VStr (slack_text +:+ url)
    /\ slack_calls (log run_generated.2)
       = [VStr (slack_text +:+ "http://x")].
Proof.
  apply (slack_only_after_success world_upload_ok stub_env stub_fs
           run_generated.1 run_generated.2
           (VStr (slack_text +:+ "http://x"))).
  - apply surjective_pairing.
  - in_calls 0.
Defined.

(** The run with no package file on the disk. *)
Lemma quiet_end_is_explained_witness :
  exists msg,
    msg ∈ diagnostics
    /\ last (log run_no_package.2) = Some (EvOutput (VStr msg)).
Proof.
  apply (quiet_end_is_explained world_upload_ok stub_env ∅
           run_no_package.2).
  - by_run.
  - by_run.
Defined.

(** The whole of the run that makes its pkginfo and uploads it. *)
Lemma successful_upload_log_witness :
  run_generated.1 = Val tt
  /\ exists before,
       log run_generated.2 = before ++
         [EvPopen (stub_upload "/pkgs/Firefox.dmg.plist");
          EvOutput (VStr ("Upload succeeded: " +:+ "ok"));
          EvOutput (VStr ("URL: " +:+ "http://x"));
          EvSlack (VStr "xoxb-1") "munkiserver-packages"
            (VStr (slack_text +:+ "http://x"))].
Proof.
  apply (successful_upload_log world_upload_ok stub_env stub_fs
           run_generated.1 run_generated.2
           (stub_upload "/pkgs/Firefox.dmg.plist") body_upload_ok
           (VDict (<["type" := VStr "success"]>
                     (<["message" := VStr "ok"]>
                        {[ "edit_url" := VStr "http://x" ]})))
           "ok" "http://x" (VStr "xoxb-1") slack_ok (VBool true)).
  - apply surjective_pairing.
  - in_calls 1.
  - by_run.
  - by_run.
  - by_run.
  - by_run.
  - by_run.
  - by_run.
  - by_run.
  - by_run.
  - by_run.
  - by_run.
Defined.

Lemma upload_sends_files_on_disk_witness :
  exists a u curl key pkg pi,
    stub_env !! "api_url" = Some (VStr a)
    /\ stub_env !! "unit" = Some (VStr u)
    /\ stub_env !! "CURL_PATH" = Some curl
    /\ stub_env !! "api_key" = Some (VStr key)
    /\ env run_generated.2 !! "package_file" = Some (VStr pkg)
    /\ is_Some (stub_fs !! pkg)
    /\ env run_generated.2 !! "pkginfo_file" = Some (VStr pi)
    /\ is_Some (fs run_generated.2 !! pi)
    /\ stub_upload "/pkgs/Firefox.dmg.plist"
       = [curl; VStr "--header"; VStr ("X-Api-Key: " +:+ key);
          VStr "-F"; VStr ("pkginfo_file=@" +:+ pi);
          VStr "-F"; VStr ("package_file=@" +:+ pkg);
          VStr "--url"; VStr (a +:+ "/" +:+ u +:+ "/packages")].
Proof.
  apply (upload_sends_files_on_disk world_upload_ok stub_env stub_fs
           run_generated.1 run_generated.2
           (stub_upload "/pkgs/Firefox.dmg.plist")).
  - apply surjective_pairing.
  - in_calls 1.
  - by_run.
Defined.

Lemma query_asks_about_pkginfo_on_disk_witness :
  exists a u curl key n v pi raw plist,
    stub_env_given !! "api_url" = Some (VStr a)
    /\ stub_env_given !! "unit" = Some (VStr u)
    /\ stub_env_given !! "api_key" = Some (VStr key)
    /\ env run_given.2 !! "pkginfo_file" = Some (VStr pi)
    /\ fs run_given.2 !! pi = Some raw
    /\ readPlist world_upload_ok raw = Ok plist
    /\ getitem plist "name" = Ok (VStr n)
    /\ getitem plist "version" = Ok (VStr v)
    /\ stub_query raw_name raw_version
       = [curl; VStr "--header"; VStr ("X-Api-Key: " +:+ key);
          VStr "--url";
          VStr (a +:+ "/" +:+ u +:+ "/packages/" +:+ n +:+ "/" +:+ v)].
Proof.
  apply (query_asks_about_pkginfo_on_disk world_upload_ok stub_env_given
           stub_fs run_given.1 run_given.2
           (stub_query raw_name raw_version)).
  - apply surjective_pairing.
  - in_calls 0.
  - by_run.
Defined.

(** The file the run that makes its pkginfo has written. *)
Lemma run_writes_only_the_plist_witness :
  stub_env !! "pkginfo_file" = None
  /\ exists pkg,
       env run_generated.2 !! "package_file" = Some (VStr pkg)
       /\ is_Some (stub_fs !! pkg)
       /\ "/pkgs/Firefox.dmg.plist" = pkg +:+ ".plist".
Proof.
  apply (run_writes_only_the_plist world_upload_ok stub_env stub_fs
           run_generated.1 run_generated.2 "/pkgs/Firefox.dmg.plist").
  - apply surjective_pairing.
  - vm_compute. discriminate.
Defined.

(** The run that takes its package from [pathname]. *)
Lemma run_env_changes_witness :
  ("package_file" = "package_file"
   /\ env run_pathname.2 !! "package_file" = env_pathname !! "pathname"
   /\ exists v0, env_pathname !! "package_file" = Some v0
                 /\ truthy v0 = false)
  \/ ("package_file" = "pkginfo_file"
      /\ env_pathname !! "pkginfo_file" = None
      /\ exists pkg,
           env run_pathname.2 !! "package_file" = Some (VStr pkg)
           /\ env run_pathname.2 !! "package_file"
              = Some (VStr (pkg +:+ ".plist"))).
Proof.
  apply (run_env_changes world_upload_ok env_pathname stub_fs
           run_pathname.1 run_pathname.2 "package_file").
  - apply surjective_pairing.
  - vm_compute. discriminate.
Defined.

(** The run with a name for [makepkginfo] and an empty display name. *)
Lemma makepkginfo_command_line_witness :
  env_named !! "pkginfo_file" = None
  /\ exists pkg,
       env run_named.2 !! "package_file" = Some (VStr pkg)
       /\ is_Some (stub_fs !! pkg)
       /\ [VStr "/usr/local/munki/makepkginfo"; VStr pkg_path;
           VStr "--name"; VStr "Firefox"]
          = makepkginfo_args env_named pkg
       /\ tool_calls (log run_named.2)
          = [[VStr "/usr/local/munki/makepkginfo"; VStr pkg_path;
              VStr "--name"; VStr "Firefox"]].
Proof.
  apply (makepkginfo_command_line world_upload_ok env_named stub_fs
           run_named.1 run_named.2
           [VStr "/usr/local/munki/makepkginfo"; VStr pkg_path;
            VStr "--name"; VStr "Firefox"]).
  - apply surjective_pairing.
  - in_calls 0.
Defined.

(** No [makepkginfo] on the machine. *)
Lemma makepkginfo_failure_witness :
  run_no_makepkginfo.1 = Raise OSError
  /\ popen_calls (log run_no_makepkginfo.2) = []
  /\ exists pkg,
       env run_no_makepkginfo.2 !! "package_file" = Some (VStr pkg)
       /\ fs run_no_makepkginfo.2 !! (pkg +:+ ".plist") = Some "".
Proof.
  apply (makepkginfo_failure world_no_makepkginfo stub_env stub_fs
           run_no_makepkginfo.1 run_no_makepkginfo.2
           [VStr "/usr/local/munki/makepkginfo"; VStr pkg_path] OSError).
  - apply surjective_pairing.
  - in_calls 0.
  - by_run.
Defined.

(** The query of the run that makes its pkginfo. *)
Lemma generated_pkginfo_sanitized_witness :
  exists a u curl key,
    stub_query "Fire_fox" "115.0_beta_"
    = [curl; VStr "--header"; VStr ("X-Api-Key: " +:+ key);
       VStr "--url";
       VStr (a +:+ "/" +:+ u +:+ "/packages/" +:+ sanitize raw_name
             +:+ "/" +:+ sanitize raw_version)].
Proof.
  apply (generated_pkginfo_sanitized world_upload_ok stub_env stub_fs
           run_generated.1 run_generated.2
           (stub_query "Fire_fox" "115.0_beta_")
           [VStr "/usr/local/munki/makepkginfo"; VStr pkg_path]
           (pkginfo_text raw_name raw_version)
           (<["name" := VStr raw_name]>
              (<["version" := VStr raw_version]>
                 {[ "catalogs" := VList [VStr "testing"] ]}))
           raw_name raw_version).
  - apply surjective_pairing.
  - in_calls 0.
  - by_run.
  - in_calls 0.
  - by_run.
  - by_run.
  - by_run.
  - by_run.
  - by_run.
Defined.

(** * Missing configuration *)

(** An event that is not the report of the configuration error does not
    make a log report it. *)
Lemma not_hint_event l ev :
  ev <> EvOutput (VStr config_hint) ->
  reports_config_error (l ++ [ev]) -> reports_config_error l.
Proof.
  unfold reports_config_error. rewrite outputs_app. intros Hne Hin.
  apply elem_of_app in Hin as [Hin|Hin]; [exact Hin|].
  destruct ev; simpl in Hin; try (inversion Hin; fail).
  apply list_elem_of_singleton in Hin. subst. contradiction.
Qed.

Ltac hintless_leaf :=
  let Hr := fresh "Hr" in
  intros Hr;
  repeat first
    [ exact Hr
    | apply not_hint_event in Hr;
      [|let E := fresh "E" in
        intros E; first [discriminate E | vm_compute in E; discriminate E]] ].

(** Nothing that [locate_package], [make_pkg_info] and [load_pkginfo] give
    to [self.output] is the report of the configuration error. *)
Lemma locate_package_hintless s o s' :
  locate_package s = (o, s') ->
  reports_config_error (log s') -> reports_config_error (log s).
Proof.
  intros H. unfold locate_package in H. monad_unfold. simpl in H.
  mcases; hintless_leaf.
Qed.

Lemma make_pkg_info_hintless w pf0 s o s' :
  make_pkg_info w pf0 s = (o, s') ->
  reports_config_error (log s') -> reports_config_error (log s).
Proof.
  intros H. unfold make_pkg_info in H. monad_unfold. simpl in H.
  mcases.
  all: repeat match goal with
       | E : extend_if_set _ _ _ _ = _ |- _ =>
           apply extend_if_set_state in E; subst
       end; simpl.
  all: hintless_leaf.
Qed.

Lemma load_pkginfo_hintless w s o s' :
  load_pkginfo w s = (o, s') ->
  reports_config_error (log s') -> reports_config_error (log s).
Proof.
  intros H. unfold load_pkginfo in H. monad_unfold. simpl in H.
  destruct (env s !! "pkginfo_file") as [pi0|] eqn:Hpi; simpl in H.
  - mcases; hintless_leaf.
  - destruct (env s !! "package_file") as [pf|]; simpl in H;
      [|simplify_eq; hintless_leaf].
    destruct (make_pkg_info w pf s) as [[[]| |x] s2] eqn:Hm;
      pose proof (make_pkg_info_hintless _ _ _ _ _ Hm) as Hh; clear Hm;
      simpl in H.
    + intros Hr. apply Hh. revert Hr. clear Hh. mcases; hintless_leaf.
    + simplify_eq. exact Hh.
    + simplify_eq. exact Hh.
Qed.

Lemma prepare_hintless w e f o s1 :
  prepare w (mkState e f []) = (o, s1) -> ~ reports_config_error (log s1).
Proof.
  intros H Hr. apply prepare_inv in H as (o0 & s0 & Hloc & Hload).
  assert (reports_config_error (log s0)) as Hr0.
  { destruct o0 as [[]| |x].
    - eapply load_pkginfo_hintless; eauto.
    - destruct Hload as [_ ->]. exact Hr.
    - destruct Hload as [_ ->]. exact Hr. }
  apply (locate_package_hintless _ _ _ Hloc) in Hr0.
  unfold reports_config_error in Hr0. simpl in Hr0. inversion Hr0.
Qed.

(** When [prepare] ends with [return], the last thing it has done is to
    give one of the early diagnostics to [self.output]. *)
Lemma prepare_return w e f s1 :
  prepare w (mkState e f []) = (Return, s1) ->
  exists msg,
    msg ∈ early_diagnostics /\ last (log s1) = Some (EvOutput (VStr msg)).
Proof.
  intros Hprep.
  apply prepare_inv in Hprep as (o0 & s0 & Hloc & Hload).
  apply locate_package_cases in Hloc as (_ & _ & _ & Hloc).
  destruct o0 as [[]| |x]; [|destruct Hload as [_ ->]
                            |destruct Hload; discriminate].
  - destruct Hloc as (_ & pkg & Hpkg & _).
    apply (load_pkginfo_cases _ _ _ _ pkg) in Hload; [|exact Hpkg].
    destruct (env s0 !! "pkginfo_file").
    + destruct Hload as (_ & _ & _ & _ & Hl).
      exists "pkginfo file specified but not found".
      split; [|rewrite Hl; apply last_snoc].
      unfold early_diagnostics. set_solver.
    + destruct Hload as (_ & _ & []).
  - destruct Hloc as [Hl|Hl]; eexists; (split; [|exact Hl]);
      unfold early_diagnostics; set_solver.
Qed.

(** C3, as the code has it. When [api_url] or [api_key] is missing from
    the environment, the run makes no call to munkiserver and none to
    Slack. A run that gets as far as a package file and a name and
    version from its pkginfo reports the configuration error as the last
    thing it does, and ends normally. A run that [main] ends before that
    with [return] ends normally too, the last thing it has done being to
    give one of the three early diagnostics to [self.output]. And the
    configuration error is reported by the runs that get as far as the
    name and the version, and by no other. *)
Theorem missing_config_no_network w e f out s' :
  run_main w e f = (out, s') ->
  absent e "api_url" \/ absent e "api_key" ->
  popen_calls (log s') = []
  /\ slack_calls (log s') = []
  /\ (forall n v s1,
        prepare w (mkState e f []) = (Val (n, v), s1) ->
        out = Val tt /\ log s' = log s1 ++ [EvOutput (VStr config_hint)])
  /\ (forall s1,
        prepare w (mkState e f []) = (Return, s1) ->
        out = Val tt /\ s' = s1
        /\ exists msg,
             msg ∈ early_diagnostics
             /\ last (log s') = Some (EvOutput (VStr msg)))
  /\ (reports_config_error (log s')
      <-> exists n v s1, prepare w (mkState e f []) = (Val (n, v), s1)).
Proof.
  intros Hrun Habs.
  pose proof (quiet_prepare w (mkState e f [])) as (Q1 & Q2 & Q3).
  destruct (prepare w (mkState e f [])) as [[[n v]| |x] s1] eqn:Hprep;
    simpl in Q1, Q2, Q3.
  - destruct (query_cmd_absent n v s1) as [x Hq].
    { unfold absent in *. rewrite !Q3 by discriminate. exact Habs. }
    destruct (config_error_run _ _ _ _ _ _ _ _ _ _ Hrun Hprep Hq)
      as [-> Hl].
    rewrite Hl. log_simpl.
    split; [auto|]. split; [auto|]. split; [|split].
    + intros n0 v0 s0 E. simplify_eq. auto.
    + intros s0 E. discriminate E.
    + split; [eauto|]. intros _. unfold reports_config_error.
      rewrite outputs_app. simpl. apply elem_of_app. right.
      apply list_elem_of_singleton. reflexivity.
  - unfold run_main in Hrun. apply main_inv in Hrun. rewrite Hprep in Hrun.
    destruct Hrun as [-> ->].
    split; [auto|]. split; [auto|]. split; [|split].
    + intros n0 v0 s0 E. discriminate E.
    + intros s0 E. simplify_eq. split; [reflexivity|].
      split; [reflexivity|]. eapply prepare_return. exact Hprep.
    + split.
      * intros Hr. exfalso. eapply prepare_hintless; eauto.
      * intros (n0 & v0 & s0 & E). discriminate E.
  - unfold run_main in Hrun. apply main_inv in Hrun. rewrite Hprep in Hrun.
    destruct Hrun as [-> ->].
    split; [auto|]. split; [auto|]. split; [|split].
    + intros n0 v0 s0 E. discriminate E.
    + intros s0 E. discriminate E.
    + split.
      * intros Hr. exfalso. eapply prepare_hintless; eauto.
      * intros (n0 & v0 & s0 & E). discriminate E.
Qed.

(** Two runs with no [api_key] or no [api_url]: one with a package and a
    pkginfo, which reports the configuration error; one with no package
    on the disk, which says that and does not. *)
Lemma missing_config_no_network_witness :
  (popen_calls
     (log (run_main world_upload_ok env_given_no_api_key stub_fs).2) = []
   /\ slack_calls
        (log (run_main world_upload_ok env_given_no_api_key stub_fs).2) = []
   /\ (run_main world_upload_ok env_given_no_api_key stub_fs).1 = Val tt
   /\ log (run_main world_upload_ok env_given_no_api_key stub_fs).2
      = [EvOutput (VStr config_hint)]
   /\ reports_config_error
        (log (run_main world_upload_ok env_given_no_api_key stub_fs).2))
  /\ (popen_calls (log (run_main world_upload_ok env_no_api_url ∅).2) = []
      /\ (run_main world_upload_ok env_no_api_url ∅).1 = Val tt
      /\ (exists msg,
            msg ∈ early_diagnostics
            /\ last (log (run_main world_upload_ok env_no_api_url ∅).2)
               = Some (EvOutput (VStr msg)))
      /\ ~ reports_config_error
             (log (run_main world_upload_ok env_no_api_url ∅).2)).
Proof.
  split.
  - destruct (missing_config_no_network world_upload_ok
                env_given_no_api_key stub_fs
                (run_main world_upload_ok env_given_no_api_key stub_fs).1
                (run_main world_upload_ok env_given_no_api_key stub_fs).2)
      as (Hp & Hs & Hv & _ & Hiff).
    + apply surjective_pairing.
    + right. right. vm_compute. reflexivity.
    + split; [exact Hp|]. split; [exact Hs|].
      assert (prepare world_upload_ok
                (mkState env_given_no_api_key stub_fs [])
              = (Val (VStr raw_name, VStr raw_version),
                 mkState env_given_no_api_key stub_fs [])) as Hprep
        by (vm_compute; reflexivity).
      destruct (Hv _ _ _ Hprep) as [Ho Hl].
      split; [exact Ho|]. split; [exact Hl|].
      apply Hiff. eauto.
  - destruct (missing_config_no_network world_upload_ok env_no_api_url ∅
                (run_main world_upload_ok env_no_api_url ∅).1
                (run_main world_upload_ok env_no_api_url ∅).2)
      as (Hp & _ & _ & Hr & Hiff).
    + apply surjective_pairing.
    + left. left. vm_compute. reflexivity.
    + split; [exact Hp|].
      assert (prepare world_upload_ok (mkState env_no_api_url ∅ [])
              = (Return, (run_main world_upload_ok env_no_api_url ∅).2))
        as Hprep by (vm_compute; reflexivity).
      destruct (Hr _ Hprep) as (Ho & _ & Hm).
      split; [exact Ho|]. split; [exact Hm|].
      intros H. apply Hiff in H as (n & v & s1 & E).
      rewrite Hprep in E. discriminate E.
Defined.
